(** * Command building for the Wikibase REST API (core/commands.py)

    A shallow embedding of [core.commands]: the translation of parsed
    values, the dispatch of [ApiCommandBuilder.build], the five command
    handlers and the [Utilities] mixin, followed by the properties of the
    specification that were checked against them.

    Python values are embedded as a small JSON-like inductive type; Python
    exceptions as an inductive type carried in a sum; calls to the API
    client as steps of a state monad that keeps a history of the calls made
    (the history survives an exception, as the requests already sent do). *)

From Stdlib Require Import String Ascii ZArith List Bool Lia.
From ExtLib Require Import Structures.Monad Structures.MonadExc.
From ExtLib Require Import Data.Monads.EitherMonad.
Import ListNotations.
Import MonadNotation.
Local Open Scope string_scope.
Local Open Scope monad_scope.
Set Warnings "-register-all".

(** ** Python values *)

(** The values that travel through the commands: what [json.loads] gives,
    integers standing for all numbers (floats are outside the model).  A
    [dict] is an association list in insertion order whose keys are taken to
    be distinct, as Python keeps them. *)
Inductive jvalue : Type :=
| JNull
| JBool (b : bool)
| JNum (n : Z)
| JStr (s : string)
| JList (l : list jvalue)
| JDict (d : list (string * jvalue)).

Definition dict : Type := list (string * jvalue).

(** [d.get(k)] on a dict with string keys: the first (and, keys being
    distinct, only) binding of [k]. *)
Fixpoint dict_get (k : string) (d : dict) : option jvalue :=
  match d with
  | [] => None
  | (k', v) :: d' => if String.eqb k k' then Some v else dict_get k d'
  end.

(** [d.get(k, default)]. *)
Definition dict_get_default (k : string) (default : jvalue) (d : dict) : jvalue :=
  match dict_get k d with
  | Some v => v
  | None => default
  end.

(** [d[k] = v]: the binding of [k] is replaced where it stands, a new key is
    added at the end. *)
Fixpoint dict_set (k : string) (v : jvalue) (d : dict) : dict :=
  match d with
  | [] => [(k, v)]
  | (k', v') :: d' =>
      if String.eqb k k' then (k', v) :: d' else (k', v') :: dict_set k v d'
  end.

(** Python's [==] on these values.  [True == 1] and [False == 0] hold in
    Python; dicts are compared key by key, whatever their order. *)
Fixpoint py_eq (a b : jvalue) {struct a} : bool :=
  match a, b with
  | JNull, JNull => true
  | JBool x, JBool y => Bool.eqb x y
  | JBool x, JNum n => Z.eqb (Z.b2z x) n
  | JNum n, JBool y => Z.eqb n (Z.b2z y)
  | JNum m, JNum n => Z.eqb m n
  | JStr s, JStr t => String.eqb s t
  | JList l, JList m =>
      (fix list_eq (l m : list jvalue) {struct l} : bool :=
         match l, m with
         | [], [] => true
         | x :: l', y :: m' => py_eq x y && list_eq l' m'
         | _, _ => false
         end) l m
  | JDict d, JDict e =>
      Nat.eqb (length d) (length e) &&
      (fix all_in (d : dict) {struct d} : bool :=
         match d with
         | [] => true
         | (k, v) :: d' =>
             match dict_get k e with
             | Some v' => py_eq v v'
             | None => false
             end && all_in d'
         end) d
  | _, _ => false
  end.

(** [x in l] for a list literal [l]: some element equals [x]. *)
Definition py_in (x : jvalue) (l : list jvalue) : bool :=
  existsb (fun y => py_eq x y) l.

(** ** Exceptions *)

(** [KeyError], [TypeError] and [ValueError] are Python's own; the others
    come from [core.exceptions] and carry their constructor arguments. *)
Inductive exn : Type :=
| KeyError (key : string)
| TypeError
| ValueError (msg : string)
| ApiNotImplemented
| InvalidPropertyDataType (property data_type needed : jvalue)
| NoToken (username : string)
| NoStatementsForThatProperty (entity_id property_id : jvalue)
| NoStatementsWithThatValue (entity_id property_id value : jvalue).

(** A computation that returns or raises. *)
Definition result (A : Type) : Type := (exn + A)%type.

(** [v[k]] for a string literal [k]: [KeyError] on a dict without the key,
    [TypeError] on anything that is not a dict (a list or a string accepts
    integer indices only, the other values no subscript at all). *)
Definition subscript (v : jvalue) (k : string) : result jvalue :=
  match v with
  | JDict d =>
      match dict_get k d with
      | Some x => inr x
      | None => inl (KeyError k)
      end
  | _ => inl TypeError
  end.

(** What a [for] loop over the value visits: the elements of a list, the
    keys of a dict, the characters of a string; the other values are not
    iterable.  (A string is listed byte by byte here; all that the loops of
    this module do with such an element is to subscript it, which fails for
    any string.) *)
Definition py_iter (v : jvalue) : result (list jvalue) :=
  match v with
  | JList l => inr l
  | JDict d => inr (map (fun kv => JStr (fst kv)) d)
  | JStr s => inr (map (fun c => JStr (String c EmptyString)) (list_ascii_of_string s))
  | _ => inl TypeError
  end.

#[export] Instance Monad_result : Monad result := Monad_either exn.
#[export] Instance MonadExc_result : MonadExc exn result := Exception_either exn.

(** A [for] loop that threads its local variables [s] through the
    iterations; an exception in the body ends the loop. *)
Fixpoint for_in {m : Type -> Type} {Mm : Monad m} {A S : Type}
    (l : list A) (body : S -> A -> m S) (s : S) : m S :=
  match l with
  | [] => ret s
  | x :: l' => s' <- body s x ;; for_in l' body s'
  end.

(** ** Value translation *)

Definition parser_value_to_api_value (parser_value : jvalue) : result jvalue :=
  t <- subscript parser_value "type" ;;
  if py_in t [JStr "novalue"; JStr "somevalue"] then
    t' <- subscript parser_value "type" ;;
    ret (JDict [("type", t')])
  else
    content <- subscript parser_value "value" ;;
    ret (JDict [("type", JStr "value"); ("content", content)]).

(** ** The collaborators *)

(** Modelled from the spec: the action tags of [core.models.BatchCommand],
    which is not part of these sources.  Only the three tags the builder
    compares with are needed. *)
Class BatchCommand : Type := {
  ACTION_CREATE : Z;
  ACTION_ADD : Z;
  ACTION_REMOVE : Z
}.

(** A batch command as the builder reads it: [command.action],
    [command.json] and [command.batch.user]. *)
Record Command : Type := {
  action : Z;
  json : dict;
  user : string
}.

(** Modelled from the spec: the method surface of [core.client.Client]
    (section 6), which is not part of these sources.  [Remote] is whatever
    the calls depend on and change (the token store, the wiki);
    [from_username] answers [None] where the code sees
    [Token.DoesNotExist].  [get_statements] returns the mapping from
    property id to the list of the entity's statements. *)
Class ClientApi : Type := {
  Client : Type;
  Remote : Type;
  from_username : string -> Remote -> option Client;
  get_property_data_type : Client -> jvalue -> Remote -> jvalue * Remote;
  get_statements : Client -> jvalue -> Remote -> list (string * list jvalue) * Remote;
  add_statement : Client -> jvalue -> jvalue -> Remote -> jvalue * Remote;
  add_label : Client -> jvalue -> jvalue -> Remote -> jvalue * Remote;
  add_description : Client -> jvalue -> jvalue -> Remote -> jvalue * Remote;
  add_alias : Client -> jvalue -> jvalue -> Remote -> jvalue * Remote;
  add_sitelink : Client -> jvalue -> jvalue -> Remote -> jvalue * Remote;
  create_item : Client -> jvalue -> Remote -> jvalue * Remote;
  delete_statement : Client -> jvalue -> jvalue -> Remote -> jvalue * Remote
}.

(** Python's [str] on the values that are not strings, which an f-string
    applies to what it interpolates; left abstract. *)
Class PyStr : Type := {
  str_other : jvalue -> string
}.

(** [f"{v}"]. *)
Definition py_format {P : PyStr} (v : jvalue) : string :=
  match v with
  | JStr s => s
  | _ => str_other v
  end.

(** One call to the client, with its arguments and what it returned. *)
Inductive call : Type :=
| Call_get_property_data_type (property_id returned : jvalue)
| Call_get_statements (entity_id : jvalue) (returned : list (string * list jvalue))
| Call_add_statement (entity_id body returned : jvalue)
| Call_add_label (entity_id body returned : jvalue)
| Call_add_description (entity_id body returned : jvalue)
| Call_add_alias (entity_id body returned : jvalue)
| Call_add_sitelink (entity_id body returned : jvalue)
| Call_create_item (body returned : jvalue)
| Call_delete_statement (statement_id body returned : jvalue).

(** The request body a call carried, for the calls that carry one. *)
Definition call_body (c : call) : option jvalue :=
  match c with
  | Call_get_property_data_type _ _ => None
  | Call_get_statements _ _ => None
  | Call_add_statement _ b _ => Some b
  | Call_add_label _ b _ => Some b
  | Call_add_description _ b _ => Some b
  | Call_add_alias _ b _ => Some b
  | Call_add_sitelink _ b _ => Some b
  | Call_create_item b _ => Some b
  | Call_delete_statement _ b _ => Some b
  end.

Section Effects.
Context {api : ClientApi}.

(** What a command runs against: the remote state and the calls made so
    far, oldest first. *)
Record world : Type := {
  remote : Remote;
  history : list call
}.

(** A computation that calls the client: it returns or raises, and leaves
    the world as the calls made it. *)
Definition M (A : Type) : Type := world -> result A * world.

#[export] Instance Monad_M : Monad M := {
  ret := fun _ x w => (inr x, w);
  bind := fun _ _ c f w =>
    match c w with
    | (inl e, w') => (inl e, w')
    | (inr x, w') => f x w'
    end
}.

#[export] Instance MonadExc_M : MonadExc exn M := {
  raise := fun _ e w => (inl e, w);
  catch := fun _ c h w =>
    match c w with
    | (inl e, w') => h e w'
    | (inr x, w') => (inr x, w')
    end
}.

(** A pure step inside [M]. *)
Definition lift {A : Type} (r : result A) : M A := fun w => (r, w).

(** Performing the client operation [op] and recording it. *)
Definition request {A : Type} (op : Remote -> A * Remote) (record : A -> call) : M A :=
  fun w =>
    let (r, s) := op (remote w) in
    (inr r, {| remote := s; history := (history w ++ [record r])%list |}).

End Effects.

(** ** The [Utilities] mixin *)

Module Utilities.
Section WithApi.
Context {api : ClientApi}.

(** [client()]: the client of the batch's user, [NoToken] when the user has
    no token. *)
Definition client (command : Command) : M Client :=
  fun w =>
    let username := user command in
    match from_username username (remote w) with
    | Some c => (inr c, w)
    | None => (inl (NoToken username), w)
    end.

(** [_comment()]: the command's summary if it has one. *)
Definition _comment (command : Command) : jvalue :=
  dict_get_default "summary" (JStr "") (json command).

(** [full_body()], given the command and what the handler's own [body()]
    does. *)
Definition full_body (command : Command) (body : result dict) : result dict :=
  body <- body ;;
  let body := dict_set "comment" (_comment command) body in
  let body := dict_set "bot" (JBool false) body in
  ret body.

End WithApi.
End Utilities.

(** ** The handlers *)

(** The dict literal that both loops of [AddStatement.body] build from a
    qualifier or a reference part. *)
Definition fix_part (part : jvalue) : result jvalue :=
  property <- subscript part "property" ;;
  value <- subscript part "value" ;;
  api_value <- parser_value_to_api_value value ;;
  ret (JDict [("property", JDict [("id", property)]); ("value", api_value)]).

Module AddStatement.

Record t : Type := {
  command : Command;
  entity_id : jvalue;
  property_id : jvalue;
  parser_value : jvalue;
  data_type : jvalue;
  references : jvalue;
  qualifiers : jvalue
}.

(** The attribute assignments of [__init__]. *)
Definition attributes (command : Command) : result t :=
  let j := JDict (json command) in
  entity <- subscript j "entity" ;;
  entity_id <- subscript entity "id" ;;
  property_id <- subscript j "property" ;;
  parser_value <- subscript j "value" ;;
  data_type <- subscript parser_value "type" ;;
  let references := dict_get_default "references" (JList []) (json command) in
  let qualifiers := dict_get_default "qualifiers" (JList []) (json command) in
  ret {| command := command; entity_id := entity_id; property_id := property_id;
         parser_value := parser_value; data_type := data_type;
         references := references; qualifiers := qualifiers |}.

Definition body (self : t) : result dict :=
  qualifiers <- py_iter (qualifiers self) ;;
  all_quali <- for_in qualifiers
                 (fun all_quali q => item <- fix_part q ;; ret (all_quali ++ [item])%list) [] ;;
  references <- py_iter (references self) ;;
  all_refs <- for_in references
                (fun all_refs ref =>
                   parts <- py_iter ref ;;
                   fixed_parts <- for_in parts
                     (fun fixed_parts part =>
                        item <- fix_part part ;; ret (fixed_parts ++ [item])%list) [] ;;
                   ret (all_refs ++ [JDict [("parts", JList fixed_parts)]])%list) [] ;;
  value <- parser_value_to_api_value (parser_value self) ;;
  ret [("statement",
        JDict [("property", JDict [("id", property_id self)]);
               ("value", value);
               ("qualifiers", JList all_quali);
               ("references", JList all_refs)])].

Section WithApi.
Context {api : ClientApi}.

Definition verify_data_type (self : t) : M unit :=
  client <- Utilities.client (command self) ;;
  needed_data_type <- request (get_property_data_type client (property_id self))
                        (Call_get_property_data_type (property_id self)) ;;
  if py_in (data_type self) [JStr "somevalue"; JStr "novalue"] then ret tt
  else if negb (py_eq needed_data_type (data_type self)) then
    raise (InvalidPropertyDataType (property_id self) (data_type self) needed_data_type)
  else ret tt.

Definition init (command : Command) : M t :=
  self <- lift (attributes command) ;;
  verify_data_type self ;;
  ret self.

Definition send (self : t) : M jvalue :=
  full_body <- lift (Utilities.full_body (command self) (body self)) ;;
  client <- Utilities.client (command self) ;;
  request (add_statement client (entity_id self) (JDict full_body))
    (Call_add_statement (entity_id self) (JDict full_body)).

End WithApi.
End AddStatement.

Module AddLabelDescriptionOrAlias.

Record t : Type := {
  command : Command;
  what : jvalue;
  entity_id : jvalue;
  language : jvalue;
  value : jvalue
}.

Definition init (command : Command) : result t :=
  let j := JDict (json command) in
  what <- subscript j "what" ;;
  entity_id <- subscript j "item" ;;
  language <- subscript j "language" ;;
  value <- subscript j "value" ;;
  value <- subscript value "value" ;;
  ret {| command := command; what := what; entity_id := entity_id;
         language := language; value := value |}.

Section WithStr.
Context {pystr : PyStr}.

Definition body (self : t) : result dict :=
  let path :=
    if negb (py_eq (what self) (JStr "alias")) then "/" ++ py_format (language self)
    else "/" ++ py_format (language self) ++ "/0" in
  ret [("patch",
        JList [JDict [("op", JStr "add"); ("path", JStr path); ("value", value self)]])].

Context {api : ClientApi}.

Definition send (self : t) : M jvalue :=
  full_body <- lift (Utilities.full_body (command self) (body self)) ;;
  client <- Utilities.client (command self) ;;
  if py_eq (what self) (JStr "label") then
    request (add_label client (entity_id self) (JDict full_body))
      (Call_add_label (entity_id self) (JDict full_body))
  else if py_eq (what self) (JStr "description") then
    request (add_description client (entity_id self) (JDict full_body))
      (Call_add_description (entity_id self) (JDict full_body))
  else if py_eq (what self) (JStr "alias") then
    request (add_alias client (entity_id self) (JDict full_body))
      (Call_add_alias (entity_id self) (JDict full_body))
  else raise (ValueError "'what' is not label, description or alias.").

End WithStr.
End AddLabelDescriptionOrAlias.

Module AddSitelink.

Record t : Type := {
  command : Command;
  what : jvalue;
  entity_id : jvalue;
  site : jvalue;
  value : jvalue
}.

Definition init (command : Command) : result t :=
  let j := JDict (json command) in
  what <- subscript j "what" ;;
  entity_id <- subscript j "item" ;;
  site <- subscript j "site" ;;
  value <- subscript j "value" ;;
  value <- subscript value "value" ;;
  ret {| command := command; what := what; entity_id := entity_id;
         site := site; value := value |}.

Section WithStr.
Context {pystr : PyStr}.

Definition body (self : t) : result dict :=
  ret [("patch",
        JList [JDict [("op", JStr "replace");
                      ("path", JStr ("/" ++ py_format (site self) ++ "/title"));
                      ("value", value self)]])].

Context {api : ClientApi}.

Definition send (self : t) : M jvalue :=
  full_body <- lift (Utilities.full_body (command self) (body self)) ;;
  client <- Utilities.client (command self) ;;
  request (add_sitelink client (entity_id self) (JDict full_body))
    (Call_add_sitelink (entity_id self) (JDict full_body)).

End WithStr.
End AddSitelink.

Module CreateItem.

Record t : Type := {
  command : Command
}.

Definition init (command : Command) : result t :=
  ret {| command := command |}.

Definition body (self : t) : result dict :=
  ret [("item", JDict [])].

Section WithApi.
Context {api : ClientApi}.

Definition send (self : t) : M jvalue :=
  full_body <- lift (Utilities.full_body (command self) (body self)) ;;
  client <- Utilities.client (command self) ;;
  request (create_item client (JDict full_body)) (Call_create_item (JDict full_body)).

End WithApi.
End CreateItem.

Module RemoveStatement.

Record t : Type := {
  command : Command;
  entity_id : jvalue;
  property_id : jvalue;
  parser_value : jvalue;
  api_value : jvalue;
  ids_to_delete : list jvalue
}.

(** The attribute assignments of [__init__]; [ids_to_delete] does not exist
    until [load_ids_to_delete] sets it, and nothing reads it before. *)
Definition attributes (command : Command) : result t :=
  let j := JDict (json command) in
  entity <- subscript j "entity" ;;
  entity_id <- subscript entity "id" ;;
  property_id <- subscript j "property" ;;
  parser_value <- subscript j "value" ;;
  api_value <- parser_value_to_api_value parser_value ;;
  ret {| command := command; entity_id := entity_id; property_id := property_id;
         parser_value := parser_value; api_value := api_value;
         ids_to_delete := [] |}.

(** [all_statements.get(property_id, [])] on the mapping the client
    returned: its keys are strings, so only a string finds a binding; a
    list or a dict is not hashable and cannot be looked up at all. *)
Definition statements_get (all_statements : list (string * list jvalue))
    (property_id : jvalue) : result (list jvalue) :=
  match property_id with
  | JStr p =>
      match find (fun kv => String.eqb p (fst kv)) all_statements with
      | Some kv => inr (snd kv)
      | None => inr []
      end
  | JList _ | JDict _ => inl TypeError
  | _ => inr []
  end.

(** The body of the loop of [load_ids_to_delete]. *)
Definition keep_if_equal (target : jvalue) (ids_to_delete : list jvalue)
    (statement : jvalue) : result (list jvalue) :=
  id <- subscript statement "id" ;;
  api_value <- subscript statement "value" ;;
  if py_eq api_value target then ret (ids_to_delete ++ [id])%list
  else ret ids_to_delete.

Definition body (self : t) : result dict :=
  ret [].

Section WithApi.
Context {api : ClientApi}.

Definition _get_statements_for_our_property (self : t) : M (list jvalue) :=
  client <- Utilities.client (command self) ;;
  all_statements <- request (get_statements client (entity_id self))
                      (Call_get_statements (entity_id self)) ;;
  our_statements <- lift (statements_get all_statements (property_id self)) ;;
  if Nat.eqb (length our_statements) 0 then
    raise (NoStatementsForThatProperty (entity_id self) (property_id self))
  else ret our_statements.

Definition load_ids_to_delete (self : t) : M t :=
  statements <- _get_statements_for_our_property self ;;
  ids_to_delete <- lift (for_in statements (keep_if_equal (api_value self)) []) ;;
  if Nat.eqb (length ids_to_delete) 0 then
    value <- lift (subscript (parser_value self) "value") ;;
    raise (NoStatementsWithThatValue (entity_id self) (property_id self) value)
  else
    ret {| command := command self; entity_id := entity_id self;
           property_id := property_id self; parser_value := parser_value self;
           api_value := api_value self; ids_to_delete := ids_to_delete |}.

Definition init (command : Command) : M t :=
  self <- lift (attributes command) ;;
  load_ids_to_delete self.

Definition send (self : t) : M (list jvalue) :=
  full_body <- lift (Utilities.full_body (command self) (body self)) ;;
  client <- Utilities.client (command self) ;;
  for_in (ids_to_delete self)
    (fun responses id =>
       res <- request (delete_statement client id (JDict full_body))
                (Call_delete_statement id (JDict full_body)) ;;
       ret (responses ++ [res])%list) [].

End WithApi.
End RemoveStatement.

(** ** The builder *)

(** What [build] returns: an instance of one of the five classes. *)
Inductive api_command : Type :=
| AddStatement_ (self : AddStatement.t)
| AddLabelDescriptionOrAlias_ (self : AddLabelDescriptionOrAlias.t)
| AddSitelink_ (self : AddSitelink.t)
| CreateItem_ (self : CreateItem.t)
| RemoveStatement_ (self : RemoveStatement.t).

Section Handlers.
Context {pystr : PyStr} {api : ClientApi}.

(** [api_command.command], [api_command.body()], [api_command.full_body()]
    and [api_command.send()], resolved on the class of the instance. *)
Definition command_of (c : api_command) : Command :=
  match c with
  | AddStatement_ self => AddStatement.command self
  | AddLabelDescriptionOrAlias_ self => AddLabelDescriptionOrAlias.command self
  | AddSitelink_ self => AddSitelink.command self
  | CreateItem_ self => CreateItem.command self
  | RemoveStatement_ self => RemoveStatement.command self
  end.

Definition body (c : api_command) : result dict :=
  match c with
  | AddStatement_ self => AddStatement.body self
  | AddLabelDescriptionOrAlias_ self => AddLabelDescriptionOrAlias.body self
  | AddSitelink_ self => AddSitelink.body self
  | CreateItem_ self => CreateItem.body self
  | RemoveStatement_ self => RemoveStatement.body self
  end.

Definition full_body (c : api_command) : result dict :=
  Utilities.full_body (command_of c) (body c).

Definition send (c : api_command) : M jvalue :=
  match c with
  | AddStatement_ self => AddStatement.send self
  | AddLabelDescriptionOrAlias_ self => AddLabelDescriptionOrAlias.send self
  | AddSitelink_ self => AddSitelink.send self
  | CreateItem_ self => CreateItem.send self
  | RemoveStatement_ self => responses <- RemoveStatement.send self ;; ret (JList responses)
  end.

End Handlers.

Module ApiCommandBuilder.
Section WithApi.
Context {consts : BatchCommand} {pystr : PyStr} {api : ClientApi}.

Definition build (command : Command) : M api_command :=
  let j := JDict (json command) in
  if Z.eqb (action command) ACTION_ADD then
    what <- lift (subscript j "what") ;;
    if py_eq what (JStr "statement") then
      self <- AddStatement.init command ;; ret (AddStatement_ self)
    else
      what <- lift (subscript j "what") ;;
      if py_in what [JStr "label"; JStr "description"; JStr "alias"] then
        self <- lift (AddLabelDescriptionOrAlias.init command) ;;
        ret (AddLabelDescriptionOrAlias_ self)
      else
        what <- lift (subscript j "what") ;;
        if py_eq what (JStr "sitelink") then
          self <- lift (AddSitelink.init command) ;; ret (AddSitelink_ self)
        else raise ApiNotImplemented
  else if Z.eqb (action command) ACTION_CREATE then
    type <- lift (subscript j "type") ;;
    if py_eq type (JStr "item") then
      self <- lift (CreateItem.init command) ;; ret (CreateItem_ self)
    else
      type <- lift (subscript j "type") ;;
      if py_eq type (JStr "property") then raise ApiNotImplemented
      else raise ApiNotImplemented
  else if Z.eqb (action command) ACTION_REMOVE then
    what <- lift (subscript j "what") ;;
    if py_eq what (JStr "statement") then
      self <- RemoveStatement.init command ;; ret (RemoveStatement_ self)
    else raise ApiNotImplemented
  else raise ApiNotImplemented.

Definition build_and_send (command : Command) : M jvalue :=
  api_command <- build command ;;
  send api_command.

End WithApi.
End ApiCommandBuilder.

(** ** What the properties are stated with *)

(** The statements of a listing whose ["value"] equals [target], in the
    order of the listing. *)
Definition value_equals (target statement : jvalue) : bool :=
  match subscript statement "value" with
  | inr v => py_eq v target
  | inl _ => false
  end.

(** [id] is the ["id"] of [statement]. *)
Definition has_id (statement id : jvalue) : Prop :=
  subscript statement "id" = inr id.

(** A statement as [get_statements] lists it: an object with an ["id"] and
    a ["value"]. *)
Definition listed_statement (statement : jvalue) : Prop :=
  (exists id, subscript statement "id" = inr id) /\
  (exists v, subscript statement "value" = inr v).

(** A qualifier or reference part [part] and the object it is translated
    to. *)
Definition translated_part (part out : jvalue) : Prop :=
  exists property value api_value,
    subscript part "property" = inr property /\
    subscript part "value" = inr value /\
    parser_value_to_api_value value = inr api_value /\
    out = JDict [("property", JDict [("id", property)]); ("value", api_value)].

(** A reference [ref] and the object it is translated to. *)
Definition translated_reference (ref out : jvalue) : Prop :=
  exists parts fixed_parts,
    py_iter ref = inr parts /\
    Forall2 translated_part parts fixed_parts /\
    out = JDict [("parts", JList fixed_parts)].

Section Deletions.
Context {api : ClientApi}.

(** Deleting the statements [ids] one after the other, each deletion seeing
    the remote state the one before left: the responses in that order and
    the final state. *)
Fixpoint delete_each (client : Client) (body : jvalue) (ids : list jvalue)
    (s : Remote) : list jvalue * Remote :=
  match ids with
  | [] => ([], s)
  | id :: ids' =>
      let (res, s1) := delete_statement client id body s in
      let (responses, s2) := delete_each client body ids' s1 in
      (res :: responses, s2)
  end.

(** The instance that the constructor [init] of a class gives, as [build]
    returns it; an exception of the constructor goes through. *)
Definition constructed {A : Type} (class : A -> api_command) (init : M A) : M api_command :=
  self <- init ;; ret (class self).

End Deletions.

(** ** A small wiki to run the commands on *)

Module Example.

Definition consts : BatchCommand :=
  {| ACTION_CREATE := 0; ACTION_ADD := 1; ACTION_REMOVE := 2 |}.

Definition pystr : PyStr := {| str_other := fun _ => "None" |}.

(** The statements of the one entity of the wiki, by property. *)
Definition wiki : Type := list (string * list jvalue).

Definition without (id : jvalue) (statements : list jvalue) : list jvalue :=
  filter (fun st => match subscript st "id" with
                    | inr i => negb (py_eq i id)
                    | inl _ => true
                    end) statements.

(** Every user but the empty name has a token; property P1114 expects a
    quantity and the others an item; a deletion answers with the id it
    deleted. *)
Definition api : ClientApi := {|
  Client := string;
  Remote := wiki;
  from_username := fun u _ => if String.eqb u "" then None else Some u;
  get_property_data_type := fun _ p r =>
    (if py_eq p (JStr "P1114") then JStr "quantity" else JStr "wikibase-item", r);
  get_statements := fun _ _ r => (r, r);
  add_statement := fun _ _ _ r => (JStr "added", r);
  add_label := fun _ _ _ r => (JStr "label", r);
  add_description := fun _ _ _ r => (JStr "description", r);
  add_alias := fun _ _ _ r => (JStr "alias", r);
  add_sitelink := fun _ _ _ r => (JStr "sitelink", r);
  create_item := fun _ _ r => (JStr "created", r);
  delete_statement := fun _ id _ r =>
    (JDict [("deleted", id)], map (fun kv => (fst kv, without id (snd kv))) r)
|}.

Definition V1 : jvalue := JDict [("type", JStr "value"); ("content", JStr "Q5")].
Definition V2 : jvalue := JDict [("type", JStr "value"); ("content", JStr "Q42")].

(** Two statements on P31 with value [V1] around one with value [V2]. *)
Definition statements : wiki :=
  [("P31", [JDict [("id", JStr "Q1$a"); ("value", V1)];
            JDict [("id", JStr "Q1$b"); ("value", V2)];
            JDict [("id", JStr "Q1$c"); ("value", V1)]])].

Definition start : @world api := @Build_world api statements [].

(** One statement on P31, with value [V1]. *)
Definition one_statement : wiki :=
  [("P31", [JDict [("id", JStr "Q1$a"); ("value", V1)]])].

Definition start_one : @world api := @Build_world api one_statement [].

(** [-Q1|P31|v] by user ["bot"], for a parsed value [v]. *)
Definition remove_P31 (v : jvalue) : Command :=
  {| action := 2;
     json := [("what", JStr "statement");
              ("entity", JDict [("type", JStr "item"); ("id", JStr "Q1")]);
              ("property", JStr "P31");
              ("value", v);
              ("summary", JStr "cleanup")];
     user := "bot" |}.

(** What [RemoveStatement.__init__] has set for it when the statements are
    loaded, [translated] being the translation of [v]. *)
Definition remove_P31_attributes (v translated : jvalue) : RemoveStatement.t :=
  {| RemoveStatement.command := remove_P31 v;
     RemoveStatement.entity_id := JStr "Q1";
     RemoveStatement.property_id := JStr "P31";
     RemoveStatement.parser_value := v;
     RemoveStatement.api_value := translated;
     RemoveStatement.ids_to_delete := [] |}.

Definition item (q : string) : jvalue :=
  JDict [("type", JStr "wikibase-item"); ("value", JStr q)].

(** [Q1|P31|Q5|P580|Q7|S248|Q8] by user ["bot"]. *)
Definition add_P31 : Command :=
  {| action := 1;
     json := [("what", JStr "statement");
              ("entity", JDict [("type", JStr "item"); ("id", JStr "Q1")]);
              ("property", JStr "P31");
              ("value", item "Q5");
              ("qualifiers", JList [JDict [("property", JStr "P580"); ("value", item "Q7")]]);
              ("references", JList [JList [JDict [("property", JStr "P248");
                                                  ("value", item "Q8")]]])];
     user := "bot" |}.

(** [Q1|P1114|v] by user ["bot"], for a parsed value [v]. *)
Definition add_P1114 (v : jvalue) : Command :=
  {| action := 1;
     json := [("what", JStr "statement");
              ("entity", JDict [("type", JStr "item"); ("id", JStr "Q1")]);
              ("property", JStr "P1114");
              ("value", v)];
     user := "bot" |}.

Definition novalue : jvalue := JDict [("type", JStr "novalue"); ("value", JStr "novalue")].

(** [CREATE_PROPERTY|string] by user ["bot"]. *)
Definition create_property : Command :=
  {| action := 0;
     json := [("type", JStr "property"); ("data", JStr "string")];
     user := "bot" |}.

(** [Q1|Senwiki|"Douglas Adams"] by user ["bot"], with a summary. *)
Definition set_sitelink : Command :=
  {| action := 1;
     json := [("what", JStr "sitelink");
              ("item", JStr "Q1");
              ("site", JStr "enwiki");
              ("value", JDict [("type", JStr "string"); ("value", JStr "Douglas Adams")]);
              ("summary", JStr "link")];
     user := "bot" |}.

(** [CREATE] by user ["bot"]. *)
Definition create_item_command : Command :=
  {| action := 0; json := [("type", JStr "item")]; user := "bot" |}.

(** The same command from the user without a token. *)
Definition anonymous (command : Command) : Command :=
  {| action := action command; json := json command; user := "" |}.

(** A listing of P31 whose second statement has no id. *)
Definition broken_listing : wiki :=
  [("P31", [JDict [("id", JStr "Q1$a"); ("value", V1)];
            JDict [("value", V1)]])].

Definition start_broken : @world api := @Build_world api broken_listing [].

(** [Q1|Aen|"alias"] by user ["bot"]. *)
Definition add_alias_en : Command :=
  {| action := 1;
     json := [("what", JStr "alias");
              ("item", JStr "Q1");
              ("language", JStr "en");
              ("value", JDict [("type", JStr "monolingualtext"); ("value", JStr "alias")])];
     user := "bot" |}.

End Example.

(** * Properties *)

(** ** Python values *)

Lemma py_eq_JStr (a : jvalue) (s : string) : py_eq a (JStr s) = true <-> a = JStr s.
Proof.
  destruct a; simpl; split; intros E; try discriminate E.
  - apply String.eqb_eq in E. now subst.
  - injection E as ->. apply String.eqb_refl.
Qed.

Lemma py_eq_JStr_false (a : jvalue) (s : string) :
  py_eq a (JStr s) = false <-> a <> JStr s.
Proof.
  rewrite <- py_eq_JStr. destruct (py_eq a (JStr s)); split; congruence.
Qed.

Lemma dict_get_set_eq (k : string) (v : jvalue) (d : dict) :
  dict_get k (dict_set k v d) = Some v.
Proof.
  induction d as [|[k' v'] d IH]; simpl.
  - now rewrite String.eqb_refl.
  - destruct (String.eqb k k') eqn:E; simpl; rewrite E; [reflexivity | exact IH].
Qed.

Lemma dict_get_set_ne (k k0 : string) (v : jvalue) (d : dict) :
  k0 <> k -> dict_get k0 (dict_set k v d) = dict_get k0 d.
Proof.
  intros N. induction d as [|[k' v'] d IH]; simpl.
  - destruct (String.eqb_spec k0 k); [contradiction | reflexivity].
  - destruct (String.eqb_spec k k') as [->|N']; simpl.
    + destruct (String.eqb_spec k0 k'); [contradiction | reflexivity].
    + now rewrite IH.
Qed.

(** Assigning to a key the dict does not have adds one binding at the end
    and leaves the others where they are. *)
Lemma dict_set_fresh (k : string) (v : jvalue) (d : dict) :
  dict_get k d = None -> dict_set k v d = (d ++ [(k, v)])%list.
Proof.
  induction d as [|[k' v'] d IH]; simpl; [reflexivity|].
  destruct (String.eqb k k'); [discriminate|].
  intros H. now rewrite IH.
Qed.

Lemma dict_get_app_fresh (k : string) (d e : dict) :
  dict_get k e = None -> dict_get k (d ++ e)%list = dict_get k d.
Proof.
  intros H. induction d as [|[k' v'] d IH]; simpl; [exact H|].
  now rewrite IH.
Qed.

(** ** Value translation *)

(** C2: for a parsed value whose type is [t], the translation is
    [{type: t}], without a content field, when [t] is "novalue" or
    "somevalue"; for any other [t] it is [{type: "value", content: X}] where
    [X] is the parsed value's raw ["value"] field. *)
Theorem parser_value_to_api_value_shape (parser_value t : jvalue) :
  subscript parser_value "type" = inr t ->
  (t = JStr "novalue" \/ t = JStr "somevalue" ->
   parser_value_to_api_value parser_value = inr (JDict [("type", t)]) /\
   dict_get "content" [("type", t)] = None) /\
  (t <> JStr "novalue" -> t <> JStr "somevalue" ->
   forall X, subscript parser_value "value" = inr X ->
   parser_value_to_api_value parser_value =
     inr (JDict [("type", JStr "value"); ("content", X)])).
Proof.
  intros Ht. unfold parser_value_to_api_value. rewrite Ht. simpl. split.
  - intros [-> | ->]; simpl; auto.
  - intros N1 N2 X HX.
    apply py_eq_JStr_false in N1, N2. rewrite N1, N2, HX. reflexivity.
Qed.

Lemma parser_value_to_api_value_shape_witness :
  parser_value_to_api_value (JDict [("type", JStr "novalue"); ("value", JStr "novalue")]) =
    inr (JDict [("type", JStr "novalue")]) /\
  parser_value_to_api_value (Example.item "Q5") =
    inr (JDict [("type", JStr "value"); ("content", JStr "Q5")]).
Proof.
  split.
  - apply (parser_value_to_api_value_shape
             (JDict [("type", JStr "novalue"); ("value", JStr "novalue")])
             (JStr "novalue")); [reflexivity | now left].
  - apply (parser_value_to_api_value_shape (Example.item "Q5") (JStr "wikibase-item"));
      [reflexivity | discriminate | discriminate | reflexivity].
Defined.

(** C3: on a parsed value tagged "novalue" or "somevalue" the translation
    succeeds, and translating its result again gives that same result. *)
Theorem parser_value_to_api_value_idempotent (parser_value t : jvalue) :
  subscript parser_value "type" = inr t ->
  t = JStr "novalue" \/ t = JStr "somevalue" ->
  exists out,
    parser_value_to_api_value parser_value = inr out /\
    parser_value_to_api_value out = inr out /\
    (out' <- parser_value_to_api_value parser_value ;; parser_value_to_api_value out') =
      parser_value_to_api_value parser_value.
Proof.
  intros Ht Htag. exists (JDict [("type", t)]).
  assert (E : parser_value_to_api_value parser_value = inr (JDict [("type", t)])).
  { unfold parser_value_to_api_value. rewrite Ht. destruct Htag as [-> | ->]; reflexivity. }
  assert (E' : parser_value_to_api_value (JDict [("type", t)]) = inr (JDict [("type", t)])).
  { destruct Htag as [-> | ->]; reflexivity. }
  rewrite E. simpl. rewrite E'. auto.
Qed.

Lemma parser_value_to_api_value_idempotent_witness :
  exists out,
    parser_value_to_api_value (JDict [("type", JStr "somevalue")]) = inr out /\
    parser_value_to_api_value out = inr out /\
    (out' <- parser_value_to_api_value (JDict [("type", JStr "somevalue")]) ;;
     parser_value_to_api_value out') =
      parser_value_to_api_value (JDict [("type", JStr "somevalue")]).
Proof.
  apply (parser_value_to_api_value_idempotent (JDict [("type", JStr "somevalue")])
           (JStr "somevalue")); [reflexivity | now right].
Defined.

(** ** The monads *)

Lemma result_bind_inr {A B : Type} (c : result A) (f : A -> result B) (b : B) :
  bind c f = inr b -> exists a, c = inr a /\ f a = inr b.
Proof. destruct c as [e|a]; simpl; [discriminate | eauto]. Qed.

Ltac bind_inv H :=
  let a := fresh "a" in
  let Ha := fresh "E" in
  apply result_bind_inr in H; destruct H as (a & Ha & H).

(** ** AddStatement *)

Section AddStatementProperties.
Context {api : ClientApi}.

Lemma AddStatement_attributes_inv (cmd : Command) (self : AddStatement.t) :
  AddStatement.attributes cmd = inr self ->
  AddStatement.command self = cmd /\
  subscript (JDict (json cmd)) "property" = inr (AddStatement.property_id self) /\
  subscript (JDict (json cmd)) "value" = inr (AddStatement.parser_value self) /\
  subscript (AddStatement.parser_value self) "type" = inr (AddStatement.data_type self).
Proof.
  unfold AddStatement.attributes. intros H.
  do 5 bind_inv H. simpl in H. injection H as <-. simpl. auto.
Qed.

(** C4: once the attributes of an [AddStatement] are set and the user's
    client is there, the constructor asks the client for the property's
    registered data type (one call, recorded), and raises
    [InvalidPropertyDataType(property id, declared type, registered type)]
    exactly when the declared type is neither "somevalue" nor "novalue" and
    differs from the registered one; a value declared "somevalue" or
    "novalue", like one of the registered type, is accepted. *)
Theorem AddStatement_init_verifies_data_type
    (cmd : Command) (self : AddStatement.t) (client : Client) (w : world) :
  AddStatement.attributes cmd = inr self ->
  from_username (user cmd) (remote w) = Some client ->
  let property_id := AddStatement.property_id self in
  let declared := AddStatement.data_type self in
  let registered := fst (get_property_data_type client property_id (remote w)) in
  let bypass := declared = JStr "somevalue" \/ declared = JStr "novalue" in
  history (snd (AddStatement.init cmd w)) =
    (history w ++ [Call_get_property_data_type property_id registered])%list /\
  (fst (AddStatement.init cmd w) =
     inl (InvalidPropertyDataType property_id declared registered) <->
   ~ bypass /\ py_eq registered declared = false) /\
  (bypass \/ py_eq registered declared = true ->
   fst (AddStatement.init cmd w) = inr self) /\
  (bypass ->
   forall p d n, fst (AddStatement.init cmd w) <> inl (InvalidPropertyDataType p d n)).
Proof.
  intros Hattr Hclient property_id declared registered bypass.
  destruct (AddStatement_attributes_inv _ _ Hattr) as (Hcmd & _).
  unfold AddStatement.init, AddStatement.verify_data_type, Utilities.client, request, lift.
  rewrite Hattr. simpl. rewrite Hcmd, Hclient.
  fold property_id declared. subst registered.
  destruct (get_property_data_type client property_id (remote w)) as [registered s].
  simpl.
  destruct (py_eq declared (JStr "somevalue")) eqn:Esome.
  { apply py_eq_JStr in Esome. simpl.
    split; [reflexivity|]. split; [|split; [reflexivity | discriminate]].
    split; [discriminate|]. intros [N _]. exfalso. apply N. now left. }
  destruct (py_eq declared (JStr "novalue")) eqn:Eno.
  { apply py_eq_JStr in Eno. simpl.
    split; [reflexivity|]. split; [|split; [reflexivity | discriminate]].
    split; [discriminate|]. intros [N _]. exfalso. apply N. now right. }
  apply py_eq_JStr_false in Esome, Eno. simpl.
  assert (Hby : ~ bypass) by (intros [B | B]; contradiction).
  destruct (py_eq registered declared) eqn:Eeq; simpl.
  - split; [reflexivity|]. split; [|split; [reflexivity | contradiction]].
    split; [discriminate|]. intros [_ N]. discriminate N.
  - split; [reflexivity|]. split; [|split; [|contradiction]].
    + split; auto.
    + intros [B | B]; [contradiction | discriminate B].
Qed.

End AddStatementProperties.

Lemma AddStatement_init_verifies_data_type_witness :
  fst (@AddStatement.init Example.api
         (Example.add_P1114 (JDict [("type", JStr "string"); ("value", JStr "ten")]))
         Example.start) =
    inl (InvalidPropertyDataType (JStr "P1114") (JStr "string") (JStr "quantity")) /\
  fst (@AddStatement.init Example.api (Example.add_P1114 Example.novalue) Example.start) =
    AddStatement.attributes (Example.add_P1114 Example.novalue).
Proof.
  split.
  - pose proof (fun self H =>
        @AddStatement_init_verifies_data_type Example.api
          (Example.add_P1114 (JDict [("type", JStr "string"); ("value", JStr "ten")]))
          self "bot" Example.start H eq_refl) as T.
    specialize (T _ eq_refl). destruct T as (_ & Hraise & _).
    apply Hraise. split; [|reflexivity]. intros [B | B]; discriminate B.
  - pose proof (fun self H =>
        @AddStatement_init_verifies_data_type Example.api
          (Example.add_P1114 Example.novalue) self "bot" Example.start H eq_refl) as T.
    specialize (T _ eq_refl). destruct T as (_ & _ & Hok & _).
    apply Hok. left. now right.
Defined.

Lemma result_bind_intro {A B : Type} (c : result A) (f : A -> result B) (a : A) (b : B) :
  c = inr a -> f a = inr b -> bind c f = inr b.
Proof. intros -> H. exact H. Qed.

(** A loop that appends one item per element collects, in order, what its
    body computes for each element, and raises as soon as the body does. *)
Lemma for_in_collect {A B : Type} (f : A -> result B)
    (body : list B -> A -> result (list B)) :
  (forall acc x, body acc x = (y <- f x ;; ret (acc ++ [y])%list)) ->
  forall (l : list A) (acc out : list B),
    for_in l body acc = inr out <->
    exists ys, Forall2 (fun x y => f x = inr y) l ys /\ out = (acc ++ ys)%list.
Proof.
  intros Hbody. induction l as [|x l IH]; intros acc out; simpl.
  - split.
    + intros [= <-]. exists []. split; [constructor | now rewrite app_nil_r].
    + intros (ys & F & ->). inversion F. now rewrite app_nil_r.
  - rewrite Hbody. destruct (f x) as [e|y] eqn:Ex; simpl.
    + split; [discriminate|]. intros (ys & F & _). inversion F; subst. congruence.
    + rewrite IH. split.
      * intros (ys & F & ->). exists (y :: ys). split; [now constructor|].
        now rewrite <- app_assoc.
      * intros (ys & F & ->). inversion F as [|? y' ? ys' Ey F']; subst.
        assert (y' = y) by congruence. subst y'.
        exists ys'. split; [assumption|]. now rewrite <- app_assoc.
Qed.

Lemma fix_part_translated (part out : jvalue) :
  fix_part part = inr out <-> translated_part part out.
Proof.
  unfold fix_part, translated_part. split.
  - intros H. do 3 bind_inv H. injection H as <-. eauto 10.
  - intros (p & v & av & Hp & Hv & Hav & ->).
    rewrite Hp. simpl. rewrite Hv. simpl. now rewrite Hav.
Qed.

(** C5: [body()] returns [b] exactly when [b] is the statement object made
    of the property id, the translation of the main value, the qualifiers
    translated one by one in the order given and the references translated
    one by one in the order given, each to the list of its translated parts
    in their order; it returns whenever all these translations exist. *)
Theorem AddStatement_body_shape (self : AddStatement.t) (b : dict) :
  AddStatement.body self = inr b <->
  exists qualifiers all_quali references all_refs value,
    py_iter (AddStatement.qualifiers self) = inr qualifiers /\
    Forall2 translated_part qualifiers all_quali /\
    py_iter (AddStatement.references self) = inr references /\
    Forall2 translated_reference references all_refs /\
    parser_value_to_api_value (AddStatement.parser_value self) = inr value /\
    b = [("statement",
          JDict [("property", JDict [("id", AddStatement.property_id self)]);
                 ("value", value);
                 ("qualifiers", JList all_quali);
                 ("references", JList all_refs)])].
Proof.
  set (fix_ref := fun ref : jvalue =>
         parts <- py_iter ref ;;
         fixed_parts <- for_in parts
           (fun fixed_parts part =>
              item <- fix_part part ;; ret (fixed_parts ++ [item])%list) [] ;;
         ret (JDict [("parts", JList fixed_parts)]) : result jvalue).
  assert (Hparts : forall l acc out,
             for_in l (fun acc part => item <- fix_part part ;; ret (acc ++ [item])%list)
               acc = inr out <->
             exists ys, Forall2 translated_part l ys /\ out = (acc ++ ys)%list).
  { intros l acc out. rewrite (for_in_collect fix_part) by reflexivity.
    split; intros (ys & F & E); exists ys; (split; [|exact E]);
      revert F; apply Forall2_impl; intros a y; apply fix_part_translated. }
  assert (Href : forall ref out, fix_ref ref = inr out <-> translated_reference ref out).
  { intros ref out. unfold fix_ref, translated_reference. split.
    - intros H. do 2 bind_inv H. injection H as <-.
      apply Hparts in E0. destruct E0 as (ys & F & ->). eauto.
    - intros (parts & fixed & Hit & F & ->).
      apply result_bind_intro with parts; [exact Hit|].
      apply result_bind_intro with fixed; [|reflexivity].
      apply Hparts. now exists fixed. }
  assert (Hbody : forall acc ref,
             (parts <- py_iter ref ;;
              fixed_parts <- for_in parts
                (fun fixed_parts part =>
                   item <- fix_part part ;; ret (fixed_parts ++ [item])%list) [] ;;
              ret (acc ++ [JDict [("parts", JList fixed_parts)]])%list) =
             (y <- fix_ref ref ;; ret (acc ++ [y])%list)).
  { intros acc ref. unfold fix_ref. destruct (py_iter ref) as [e|parts]; [reflexivity|].
    simpl. now destruct (for_in parts _ []). }
  unfold AddStatement.body. split.
  - intros H. do 5 bind_inv H. injection H as <-.
    apply Hparts in E0. destruct E0 as (all_quali & Fq & ->).
    apply (for_in_collect fix_ref) in E2; [|exact Hbody].
    destruct E2 as (all_refs & Fr & ->).
    exists a, all_quali, a1, all_refs, a3. repeat split; auto.
    revert Fr. apply Forall2_impl. intros r y. apply Href.
  - intros (qualifiers & all_quali & references & all_refs & value &
            Hq & Fq & Hr & Fr & Hv & ->).
    apply result_bind_intro with qualifiers; [exact Hq|].
    apply result_bind_intro with all_quali; [apply Hparts; now exists all_quali|].
    apply result_bind_intro with references; [exact Hr|].
    apply result_bind_intro with all_refs.
    { apply (for_in_collect fix_ref); [exact Hbody|]. exists all_refs. split; [|reflexivity].
      revert Fr. apply Forall2_impl. intros r y. apply Href. }
    apply result_bind_intro with value; [exact Hv | reflexivity].
Qed.

(** The example command [Q1|P31|Q5|P580|Q7|S248|Q8] gives the statement
    with one qualifier and one reference of one part. *)
Example AddStatement_body_add_P31 :
  (self <- AddStatement.attributes Example.add_P31 ;; AddStatement.body self) =
  inr [("statement",
        JDict [("property", JDict [("id", JStr "P31")]);
               ("value", JDict [("type", JStr "value"); ("content", JStr "Q5")]);
               ("qualifiers",
                JList [JDict [("property", JDict [("id", JStr "P580")]);
                              ("value", JDict [("type", JStr "value");
                                               ("content", JStr "Q7")])]]);
               ("references",
                JList [JDict [("parts",
                   JList [JDict [("property", JDict [("id", JStr "P248")]);
                                 ("value", JDict [("type", JStr "value");
                                                  ("content", JStr "Q8")])]])]])])].
Proof. reflexivity. Qed.

(** ** AddLabelDescriptionOrAlias *)

Section AddLabelDescriptionOrAliasProperties.
Context {pystr : PyStr} {api : ClientApi}.

(** C6: [body()] is the one JSON-patch operation
    [{op: "add", path: p, value: v}] with [v] the literal value and [p] =
    "/<language>" for a label or a description, "/<language>/0" for an alias,
    <language> being the language as the f-string prints it (a string prints
    as itself); with the user's client there, [send] performs exactly one
    call, [add_label], [add_description] or [add_alias] according to the kind,
    on the entity and the full body, and returns its response; for any other
    kind it raises [ValueError] and calls nothing. *)
Theorem AddLabelDescriptionOrAlias_body_and_send
    (self : AddLabelDescriptionOrAlias.t) (client : Client) (w : world) :
  from_username (user (AddLabelDescriptionOrAlias.command self)) (remote w) = Some client ->
  let what := AddLabelDescriptionOrAlias.what self in
  let entity_id := AddLabelDescriptionOrAlias.entity_id self in
  let language := py_format (AddLabelDescriptionOrAlias.language self) in
  let patch := fun path : string =>
    [("patch", JList [JDict [("op", JStr "add"); ("path", JStr path);
                             ("value", AddLabelDescriptionOrAlias.value self)]])] in
  let done := fun (record : jvalue -> call) (r : jvalue * Remote) =>
    (inr (fst r) : result jvalue,
     {| remote := snd r; history := (history w ++ [record (fst r)])%list |}) in
  (forall lang, AddLabelDescriptionOrAlias.language self = JStr lang -> language = lang) /\
  (what = JStr "label" \/ what = JStr "description" ->
   AddLabelDescriptionOrAlias.body self = inr (patch ("/" ++ language))) /\
  (what = JStr "alias" ->
   AddLabelDescriptionOrAlias.body self = inr (patch ("/" ++ language ++ "/0"))) /\
  exists full_body,
    Utilities.full_body (AddLabelDescriptionOrAlias.command self)
      (AddLabelDescriptionOrAlias.body self) = inr full_body /\
    (what = JStr "label" ->
     AddLabelDescriptionOrAlias.send self w =
       done (Call_add_label entity_id (JDict full_body))
         (add_label client entity_id (JDict full_body) (remote w))) /\
    (what = JStr "description" ->
     AddLabelDescriptionOrAlias.send self w =
       done (Call_add_description entity_id (JDict full_body))
         (add_description client entity_id (JDict full_body) (remote w))) /\
    (what = JStr "alias" ->
     AddLabelDescriptionOrAlias.send self w =
       done (Call_add_alias entity_id (JDict full_body))
         (add_alias client entity_id (JDict full_body) (remote w))) /\
    (what <> JStr "label" -> what <> JStr "description" -> what <> JStr "alias" ->
     AddLabelDescriptionOrAlias.send self w =
       (inl (ValueError "'what' is not label, description or alias."), w)).
Proof.
  intros Hclient what entity_id language patch done.
  split; [|split; [|split]].
  - intros lang Hlang. unfold language. now rewrite Hlang.
  - unfold AddLabelDescriptionOrAlias.body. fold what language.
    intros [-> | ->]; reflexivity.
  - unfold AddLabelDescriptionOrAlias.body. fold what language.
    intros ->. reflexivity.
  - assert (Hfb : exists full_body,
               Utilities.full_body (AddLabelDescriptionOrAlias.command self)
                 (AddLabelDescriptionOrAlias.body self) = inr full_body)
      by (eexists; reflexivity).
    destruct Hfb as [full_body Hfb]. exists full_body. split; [exact Hfb|].
    unfold AddLabelDescriptionOrAlias.send, lift, Utilities.client, request.
    rewrite Hfb. simpl. rewrite Hclient. fold what entity_id.
    repeat split.
    + intros ->. simpl.
      now destruct (add_label client entity_id (JDict full_body) (remote w)).
    + intros ->. simpl.
      now destruct (add_description client entity_id (JDict full_body) (remote w)).
    + intros ->. simpl.
      now destruct (add_alias client entity_id (JDict full_body) (remote w)).
    + intros N1 N2 N3. apply py_eq_JStr_false in N1, N2, N3.
      now rewrite N1, N2, N3.
Qed.

End AddLabelDescriptionOrAliasProperties.

Lemma AddLabelDescriptionOrAlias_body_and_send_witness :
  (self <- AddLabelDescriptionOrAlias.init Example.add_alias_en ;;
   @AddLabelDescriptionOrAlias.body Example.pystr self) =
  inr [("patch", JList [JDict [("op", JStr "add"); ("path", JStr "/en/0");
                               ("value", JStr "alias")]])].
Proof.
  pose proof (@AddLabelDescriptionOrAlias_body_and_send Example.pystr Example.api
                {| AddLabelDescriptionOrAlias.command := Example.add_alias_en;
                   AddLabelDescriptionOrAlias.what := JStr "alias";
                   AddLabelDescriptionOrAlias.entity_id := JStr "Q1";
                   AddLabelDescriptionOrAlias.language := JStr "en";
                   AddLabelDescriptionOrAlias.value := JStr "alias" |}
                "bot" Example.start eq_refl) as T.
  destruct T as (_ & _ & Halias & _). exact (Halias eq_refl).
Defined.

(** ** RemoveStatement *)

(** The loop of [load_ids_to_delete] goes through exactly when every
    statement has an id and a value, and then has appended the ids of the
    statements whose value equals the target, in the order of the listing. *)
Lemma keep_if_equal_loop (target : jvalue) (statements : list jvalue) :
  forall acc out,
    for_in statements (RemoveStatement.keep_if_equal target) acc = inr out <->
    Forall listed_statement statements /\
    exists ids, Forall2 has_id (filter (value_equals target) statements) ids /\
                out = (acc ++ ids)%list.
Proof.
  induction statements as [|st l IH]; intros acc out; simpl.
  - split.
    + intros [= <-]. split; [constructor|]. exists []. split; [constructor|].
      now rewrite app_nil_r.
    + intros (_ & ids & F & ->). inversion F. now rewrite app_nil_r.
  - unfold RemoveStatement.keep_if_equal at 1, value_equals at 1.
    destruct (subscript st "id") as [e|id] eqn:Eid; simpl.
    { split; [discriminate|]. intros (F & _). inversion F as [|? ? [[i Hi] _] _]; subst.
      congruence. }
    destruct (subscript st "value") as [e|v] eqn:Ev; simpl.
    { split; [discriminate|]. intros (F & _). inversion F as [|? ? [_ [i Hi]] _]; subst.
      congruence. }
    assert (Hst : listed_statement st) by (split; eauto).
    destruct (py_eq v target); simpl; rewrite IH; split.
    + intros (F & ids & F2 & ->). split; [now constructor|].
      exists (id :: ids). split; [now constructor|]. now rewrite <- app_assoc.
    + intros (F & ids & F2 & ->). inversion F; subst.
      inversion F2 as [|? id' ? ids' Hid F2']; subst.
      unfold has_id in Hid. assert (id' = id) by congruence. subst id'.
      split; [assumption|]. exists ids'. split; [assumption|]. now rewrite <- app_assoc.
    + intros (F & ids & F2 & ->). split; [now constructor|]. eauto.
    + intros (F & ids & F2 & ->). inversion F; subst. eauto.
Qed.

Lemma keep_if_equal_listed (target : jvalue) (statements : list jvalue) :
  Forall listed_statement statements ->
  exists ids,
    for_in statements (RemoveStatement.keep_if_equal target) [] = inr ids /\
    Forall2 has_id (filter (value_equals target) statements) ids.
Proof.
  intros F.
  assert (H : exists ids, Forall2 has_id (filter (value_equals target) statements) ids).
  { induction F as [|st l [[id Hid] _] _ IH]; simpl.
    - exists []. constructor.
    - destruct IH as [ids IH]. destruct (value_equals target st).
      + exists (id :: ids). now constructor.
      + now exists ids. }
  destruct H as [ids H]. exists ids. split; [|exact H].
  apply keep_if_equal_loop. split; [exact F|]. now exists ids.
Qed.

Lemma filter_nil_iff {A : Type} (p : A -> bool) (l : list A) :
  filter p l = [] <-> forall x, In x l -> p x = false.
Proof.
  induction l as [|a l IH]; simpl.
  - split; [intros _ x [] | reflexivity].
  - destruct (p a) eqn:E; split.
    + discriminate.
    + intros H. specialize (H a (or_introl eq_refl)). congruence.
    + intros H x [<- | Hx]; [exact E | now apply IH].
    + intros H. apply IH. intros x Hx. apply H. now right.
Qed.

Lemma subscript_error (v : jvalue) (k : string) (e : exn) :
  subscript v k = inl e -> e = KeyError k \/ e = TypeError.
Proof.
  destruct v; simpl; try (intros [= <-]; now right).
  destruct (dict_get k d); [discriminate|]. intros [= <-]. now left.
Qed.

Lemma RemoveStatement_attributes_inv (cmd : Command) (self : RemoveStatement.t) :
  RemoveStatement.attributes cmd = inr self ->
  RemoveStatement.command self = cmd /\
  subscript (JDict (json cmd)) "value" = inr (RemoveStatement.parser_value self) /\
  parser_value_to_api_value (RemoveStatement.parser_value self) =
    inr (RemoveStatement.api_value self).
Proof.
  unfold RemoveStatement.attributes. intros H.
  do 5 bind_inv H. simpl in H. injection H as <-. simpl. auto.
Qed.

Section RemoveStatementProperties.
Context {api : ClientApi}.

(** What the constructor does once the attributes are set, the client is
    there and the statements of the property are listed. *)
Lemma RemoveStatement_init_run
    (cmd : Command) (self : RemoveStatement.t) (client : Client) (w : world)
    (statements : list jvalue) :
  RemoveStatement.attributes cmd = inr self ->
  from_username (user cmd) (remote w) = Some client ->
  let entity_id := RemoveStatement.entity_id self in
  let property_id := RemoveStatement.property_id self in
  let listing := get_statements client entity_id (remote w) in
  RemoveStatement.statements_get (fst listing) property_id = inr statements ->
  RemoveStatement.init cmd w =
    (match statements with
     | [] => inl (NoStatementsForThatProperty entity_id property_id)
     | _ :: _ =>
         match for_in statements
                 (RemoveStatement.keep_if_equal (RemoveStatement.api_value self)) [] with
         | inl e => inl e
         | inr [] =>
             match subscript (RemoveStatement.parser_value self) "value" with
             | inl e => inl e
             | inr value => inl (NoStatementsWithThatValue entity_id property_id value)
             end
         | inr (id :: ids) =>
             inr {| RemoveStatement.command := RemoveStatement.command self;
                    RemoveStatement.entity_id := entity_id;
                    RemoveStatement.property_id := property_id;
                    RemoveStatement.parser_value := RemoveStatement.parser_value self;
                    RemoveStatement.api_value := RemoveStatement.api_value self;
                    RemoveStatement.ids_to_delete := id :: ids |}
         end
     end,
     {| remote := snd listing;
        history := (history w ++ [Call_get_statements entity_id (fst listing)])%list |}).
Proof.
  intros Hattr Hclient entity_id property_id listing Hget.
  destruct (RemoveStatement_attributes_inv _ _ Hattr) as (Hcmd & _).
  unfold RemoveStatement.init, RemoveStatement.load_ids_to_delete,
    RemoveStatement._get_statements_for_our_property, Utilities.client, request, lift.
  rewrite Hattr. simpl. rewrite Hcmd, Hclient.
  fold entity_id property_id listing. destruct listing as [all s]. simpl in *.
  rewrite Hget. destruct statements as [|st l]; [reflexivity|].
  cbn [length Nat.eqb].
  destruct (for_in (st :: l) _ []) as [e|[|id ids]]; [reflexivity| |reflexivity].
  simpl. now destruct (subscript (RemoveStatement.parser_value self) "value").
Qed.

(** The two errors of the constructor.  Once the attributes are set and the
    client is there, the constructor fetches the statements of the entity
    (one call, recorded); with [statements] those listed for the target
    property, each with its id and value, it raises
    [NoStatementsForThatProperty] exactly when there are none, and
    [NoStatementsWithThatValue], with the raw value of the target as its
    third argument, exactly when there are some, none has a value equal to
    the translated target, and the target has a raw value to report; it
    succeeds exactly when some statement has an equal value. *)
Lemma RemoveStatement_init_errors
    (cmd : Command) (self : RemoveStatement.t) (client : Client) (w : world)
    (statements : list jvalue) :
  RemoveStatement.attributes cmd = inr self ->
  from_username (user cmd) (remote w) = Some client ->
  let entity_id := RemoveStatement.entity_id self in
  let property_id := RemoveStatement.property_id self in
  let target := RemoveStatement.parser_value self in
  let translated := RemoveStatement.api_value self in
  let listing := get_statements client entity_id (remote w) in
  RemoveStatement.statements_get (fst listing) property_id = inr statements ->
  Forall listed_statement statements ->
  parser_value_to_api_value target = inr translated /\
  history (snd (RemoveStatement.init cmd w)) =
    (history w ++ [Call_get_statements entity_id (fst listing)])%list /\
  (fst (RemoveStatement.init cmd w) =
     inl (NoStatementsForThatProperty entity_id property_id) <->
   statements = []) /\
  (forall value,
     fst (RemoveStatement.init cmd w) =
       inl (NoStatementsWithThatValue entity_id property_id value) <->
     statements <> [] /\
     (forall st, In st statements -> value_equals translated st = false) /\
     subscript target "value" = inr value) /\
  ((exists self', fst (RemoveStatement.init cmd w) = inr self') <->
   exists st, In st statements /\ value_equals translated st = true).
Proof.
  intros Hattr Hclient entity_id property_id target translated listing Hget Hlisted.
  rewrite (RemoveStatement_init_run cmd self client w statements Hattr Hclient Hget).
  fold entity_id property_id target translated listing. cbn [fst snd history].
  split; [apply (RemoveStatement_attributes_inv _ _ Hattr)|].
  split; [reflexivity|].
  destruct statements as [|st0 l] eqn:Est.
  { split; [tauto|]. split.
    - intros value. split; [discriminate|]. intros (N & _). contradiction.
    - split; [intros [? [=]] | intros (st & [] & _)]. }
  assert (Hne : statements <> []) by (rewrite Est; discriminate).
  rewrite <- Est in *. clear Est.
  destruct (keep_if_equal_listed translated statements Hlisted) as (ids & Hloop & Hids).
  rewrite Hloop.
  assert (Hnone : ids = [] <-> forall st, In st statements -> value_equals translated st = false).
  { rewrite <- filter_nil_iff. split.
    - intros ->. now inversion Hids.
    - intros E. rewrite E in Hids. now inversion Hids. }
  destruct ids as [|id ids].
  - assert (Hno := proj1 Hnone eq_refl).
    destruct (subscript target "value") as [e|v0] eqn:Ev.
    + apply subscript_error in Ev.
      split; [split; [destruct Ev as [-> | ->]; discriminate | contradiction]|].
      split.
      * intros value. split; [destruct Ev as [-> | ->]; discriminate|].
        intros (_ & _ & [=]).
      * split; [intros [? E]; destruct Ev as [-> | ->]; discriminate E|].
        intros (st & Hin & Htrue). rewrite (Hno st Hin) in Htrue. discriminate.
    + split; [split; [discriminate | contradiction]|].
      split.
      * intros value. split.
        -- intros [= <-]. auto.
        -- intros (_ & _ & [= <-]). reflexivity.
      * split; [intros [? [=]]|].
        intros (st & Hin & Htrue). rewrite (Hno st Hin) in Htrue. discriminate.
  - split; [split; [discriminate | contradiction]|].
    split.
    + intros value. split; [discriminate|].
      intros (_ & Hno & _). apply Hnone in Hno. discriminate.
    + split; [|eauto]. intros _.
      inversion Hids as [|st ? ? ? _ _ Hf]; subst.
      exists st. apply filter_In. rewrite <- Hf. now left.
Qed.

End RemoveStatementProperties.

Section RemoveStatementSend.
Context {api : ClientApi}.

Lemma M_bind_lift {A B : Type} (a : A) (f : A -> M B) (w : world) :
  bind (lift (inr a)) f w = f a w.
Proof. reflexivity. Qed.

Lemma M_bind_client {B : Type} (cmd : Command) (client : Client) (f : Client -> M B)
    (w : world) :
  from_username (user cmd) (remote w) = Some client ->
  bind (Utilities.client cmd) f w = f client w.
Proof. intros H. unfold Utilities.client. cbn [bind Monad_M]. now rewrite H. Qed.

(** The loop of [send]: one [delete_statement] per id, in order, each
    recorded with its response, the responses appended in that order. *)
Lemma delete_loop (client : Client) (body : jvalue) (ids : list jvalue) :
  forall (acc : list jvalue) (w : world),
    for_in ids
      (fun responses id =>
         res <- request (delete_statement client id body)
                  (Call_delete_statement id body) ;;
         ret (responses ++ [res])%list) acc w =
    (inr (acc ++ fst (delete_each client body ids (remote w)))%list,
     {| remote := snd (delete_each client body ids (remote w));
        history :=
          (history w ++
           map (fun ir => Call_delete_statement (fst ir) body (snd ir))
             (combine ids (fst (delete_each client body ids (remote w)))))%list |}).
Proof.
  induction ids as [|id ids IH]; intros acc w.
  - simpl. rewrite !app_nil_r. now destruct w.
  - cbn [for_in]. unfold request at 1. cbn [bind Monad_M].
    cbn [delete_each].
    destruct (delete_statement client id body (remote w)) as [res s1] eqn:Ed.
    cbn [ret Monad_M]. rewrite IH. cbn [remote history].
    destruct (delete_each client body ids s1) as [responses s2].
    cbn [fst snd combine map]. now rewrite <- !app_assoc.
Qed.

Lemma delete_each_length (client : Client) (body : jvalue) (ids : list jvalue) :
  forall s, length (fst (delete_each client body ids s)) = length ids.
Proof.
  induction ids as [|id ids IH]; intros s; simpl; [reflexivity|].
  destruct (delete_statement client id body s) as [res s1].
  specialize (IH s1). destruct (delete_each client body ids s1). simpl in *.
  now rewrite IH.
Qed.

(** C8: when the construction of a [RemoveStatement] succeeded, its
    [ids_to_delete] are the ids of the listed statements whose value equals
    the target, in the order of the listing, and there is at least one; with
    the user's client there, [send] then calls [delete_statement] once per id
    in that order, each with the full body, and returns the responses in
    that order, as many as there are ids. *)
Theorem RemoveStatement_send_deletes_in_order
    (cmd : Command) (w0 w1 : world) (self : RemoveStatement.t) :
  RemoveStatement.init cmd w0 = (inr self, w1) ->
  let ids := RemoveStatement.ids_to_delete self in
  (exists client0 statements,
     from_username (user cmd) (remote w0) = Some client0 /\
     RemoveStatement.statements_get
       (fst (get_statements client0 (RemoveStatement.entity_id self) (remote w0)))
       (RemoveStatement.property_id self) = inr statements /\
     Forall2 has_id
       (filter (value_equals (RemoveStatement.api_value self)) statements) ids) /\
  ids <> [] /\
  forall (w : world) (client : Client),
    from_username (user cmd) (remote w) = Some client ->
    let body := JDict [("comment", Utilities._comment cmd); ("bot", JBool false)] in
    let responses := fst (delete_each client body ids (remote w)) in
    RemoveStatement.send self w =
      (inr responses,
       {| remote := snd (delete_each client body ids (remote w));
          history :=
            (history w ++
             map (fun ir => Call_delete_statement (fst ir) body (snd ir))
               (combine ids responses))%list |}) /\
    length responses = length ids.
Proof.
  intros Hinit ids.
  destruct (RemoveStatement.attributes cmd) as [e|self0] eqn:Hattr.
  { unfold RemoveStatement.init, lift in Hinit. rewrite Hattr in Hinit. discriminate Hinit. }
  destruct (RemoveStatement_attributes_inv _ _ Hattr) as (Hcmd & _).
  destruct (from_username (user cmd) (remote w0)) as [client0|] eqn:Hclient0.
  2:{ unfold RemoveStatement.init, RemoveStatement.load_ids_to_delete,
        RemoveStatement._get_statements_for_our_property, Utilities.client, lift in Hinit.
      rewrite Hattr in Hinit. simpl in Hinit. rewrite Hcmd, Hclient0 in Hinit.
      discriminate Hinit. }
  destruct (RemoveStatement.statements_get
              (fst (get_statements client0 (RemoveStatement.entity_id self0) (remote w0)))
              (RemoveStatement.property_id self0)) as [e|statements] eqn:Hget.
  { unfold RemoveStatement.init, RemoveStatement.load_ids_to_delete,
      RemoveStatement._get_statements_for_our_property, Utilities.client, request, lift
      in Hinit.
    rewrite Hattr in Hinit. simpl in Hinit. rewrite Hcmd, Hclient0 in Hinit.
    destruct (get_statements client0 (RemoveStatement.entity_id self0) (remote w0)).
    simpl in *. rewrite Hget in Hinit. discriminate Hinit. }
  rewrite (RemoveStatement_init_run cmd self0 client0 w0 statements Hattr Hclient0 Hget)
    in Hinit.
  destruct statements as [|st0 l] eqn:Est; [discriminate Hinit|]. rewrite <- Est in *.
  match type of Hinit with
  | context [for_in ?l ?f ?a] => destruct (for_in l f a) as [e|[|id ids']] eqn:Hloop
  end.
  { discriminate Hinit. }
  { destruct (subscript (RemoveStatement.parser_value self0) "value"); discriminate Hinit. }
  injection Hinit as <- _. subst ids. cbn [RemoveStatement.ids_to_delete
    RemoveStatement.entity_id RemoveStatement.property_id RemoveStatement.api_value].
  apply keep_if_equal_loop in Hloop. destruct Hloop as (_ & ids0 & Hids & E).
  simpl in E. rewrite <- E in Hids. clear E ids0.
  split; [|split].
  - exists client0, statements. auto.
  - discriminate.
  - intros w client Hclient. split; [|apply delete_each_length].
    unfold RemoveStatement.send.
    replace (Utilities.full_body _ _)
      with (inr [("comment", Utilities._comment cmd); ("bot", JBool false)] : result dict)
      by (cbn [RemoveStatement.command]; now rewrite Hcmd).
    rewrite M_bind_lift. cbn [RemoveStatement.command].
    rewrite Hcmd, (M_bind_client _ _ _ _ Hclient).
    exact (delete_loop client _ (id :: ids') [] w).
Qed.

End RemoveStatementSend.

(** One statement on P31 with value [V1] and a target that translates to
    [V2]: [NoStatementsWithThatValue]. *)
Example RemoveStatement_init_other_value :
  fst (@RemoveStatement.init Example.api (Example.remove_P31 (Example.item "Q42"))
         Example.start_one) =
  inl (NoStatementsWithThatValue (JStr "Q1") (JStr "P31") (JStr "Q42")).
Proof.
  pose proof (@RemoveStatement_init_errors Example.api
        (Example.remove_P31 (Example.item "Q42"))
        (Example.remove_P31_attributes (Example.item "Q42") Example.V2)
        "bot" Example.start_one
        [JDict [("id", JStr "Q1$a"); ("value", Example.V1)]]
        eq_refl eq_refl eq_refl) as T.
  assert (L : Forall listed_statement [JDict [("id", JStr "Q1$a"); ("value", Example.V1)]]).
  { constructor; [|constructor]. split; eexists; reflexivity. }
  destruct (T L) as (_ & _ & _ & Hvalue & _).
  apply Hvalue. split; [discriminate|]. split; [|reflexivity].
  intros st [<- | []]. reflexivity.
Qed.

(** C7: the constructor does not raise [NoStatementsWithThatValue] whenever
    the property has statements and none has a value equal to the translated
    target.  For the target [{"type": "somevalue"}], which translates to
    [{"type": "somevalue"}], and an entity whose only statement on P31 has
    value [V1], no statement matches, and the constructor fails with
    [KeyError("value")]: building the exception reads the raw ["value"] of
    the target, which the translation did not need. *)
Theorem RemoveStatement_init_missing_value_field :
  let target := JDict [("type", JStr "somevalue")] in
  let translated := JDict [("type", JStr "somevalue")] in
  let statement := JDict [("id", JStr "Q1$a"); ("value", Example.V1)] in
  let cmd := Example.remove_P31 target in
  RemoveStatement.attributes cmd = inr (Example.remove_P31_attributes target translated) /\
  RemoveStatement.statements_get
    (fst (@get_statements Example.api "bot" (JStr "Q1") Example.one_statement))
    (JStr "P31") = inr [statement] /\
  value_equals translated statement = false /\
  fst (@RemoveStatement.init Example.api cmd Example.start_one) = inl (KeyError "value") /\
  forall e p v,
    fst (@RemoveStatement.init Example.api cmd Example.start_one) <>
    inl (NoStatementsWithThatValue e p v).
Proof.
  repeat split. intros e p v. discriminate.
Qed.

Lemma RemoveStatement_send_deletes_in_order_witness :
  match @RemoveStatement.init Example.api (Example.remove_P31 (Example.item "Q5"))
          Example.start with
  | (inr self, w1) =>
      RemoveStatement.ids_to_delete self = [JStr "Q1$a"; JStr "Q1$c"] /\
      fst (RemoveStatement.send self w1) =
        inr [JDict [("deleted", JStr "Q1$a")]; JDict [("deleted", JStr "Q1$c")]]
  | _ => False
  end.
Proof.
  pose proof (fun self w1 H =>
      @RemoveStatement_send_deletes_in_order Example.api
        (Example.remove_P31 (Example.item "Q5")) Example.start w1 self H) as T.
  specialize (T _ _ eq_refl). destruct T as (_ & _ & T).
  match type of T with
  | forall w, _ => specialize (T (snd (@RemoveStatement.init Example.api
                      (Example.remove_P31 (Example.item "Q5")) Example.start)) "bot" eq_refl)
  end.
  destruct T as [Hsend _]. apply (f_equal fst) in Hsend.
  split; [reflexivity | exact Hsend].
Defined.

Section RemoveStatementMissingValue.
Context {api : ClientApi}.

(** C10 (as amended): when the target property has statements and none has
    a value equal to the translated target, the constructor reads the raw
    ["value"] field of the target: where the target has that field the
    constructor raises [NoStatementsWithThatValue] with it, whatever the
    target is tagged; where the target lacks it the constructor fails with
    [KeyError("value")] instead, and such a target is tagged "novalue" or
    "somevalue". *)
Theorem RemoveStatement_init_no_match
    (cmd : Command) (self : RemoveStatement.t) (client : Client) (w : world)
    (statements : list jvalue) :
  RemoveStatement.attributes cmd = inr self ->
  from_username (user cmd) (remote w) = Some client ->
  let entity_id := RemoveStatement.entity_id self in
  let property_id := RemoveStatement.property_id self in
  let target := RemoveStatement.parser_value self in
  let listing := get_statements client entity_id (remote w) in
  RemoveStatement.statements_get (fst listing) property_id = inr statements ->
  Forall listed_statement statements ->
  statements <> [] ->
  (forall st, In st statements ->
              value_equals (RemoveStatement.api_value self) st = false) ->
  (forall value, subscript target "value" = inr value ->
     fst (RemoveStatement.init cmd w) =
       inl (NoStatementsWithThatValue entity_id property_id value)) /\
  ((forall value, subscript target "value" <> inr value) ->
     fst (RemoveStatement.init cmd w) = inl (KeyError "value") /\
     (subscript target "type" = inr (JStr "novalue") \/
      subscript target "type" = inr (JStr "somevalue"))).
Proof.
  intros Hattr Hclient entity_id property_id target listing Hget Hlisted Hne Hnone.
  rewrite (RemoveStatement_init_run cmd self client w statements Hattr Hclient Hget).
  fold entity_id property_id target listing. cbn [fst].
  destruct (keep_if_equal_listed (RemoveStatement.api_value self) statements Hlisted)
    as (ids & Hloop & Hids).
  apply filter_nil_iff in Hnone. rewrite Hnone in Hids. inversion Hids; subst.
  destruct statements as [|st0 l]; [contradiction|]. rewrite Hloop.
  split.
  - intros value ->. reflexivity.
  - intros Hmissing.
    destruct (RemoveStatement_attributes_inv _ _ Hattr) as (_ & _ & Htr).
    fold target in Htr. unfold parser_value_to_api_value in Htr.
    bind_inv Htr. rename a into t.
    destruct (subscript target "value") as [e|value] eqn:Ev;
      [|exfalso; now apply (Hmissing value)].
    destruct target as [| | | | |d]; try discriminate E.
    simpl in Ev. destruct (dict_get "value" d); [discriminate Ev|].
    injection Ev as <-. split; [reflexivity|].
    destruct (py_in t [JStr "novalue"; JStr "somevalue"]) eqn:Ein.
    + unfold py_in in Ein. simpl in Ein.
      destruct (py_eq t (JStr "novalue")) eqn:E1.
      * apply py_eq_JStr in E1. subst t. now left.
      * destruct (py_eq t (JStr "somevalue")) eqn:E2; [|discriminate Ein].
        apply py_eq_JStr in E2. subst t. now right.
    + bind_inv Htr. discriminate E0.
Qed.

End RemoveStatementMissingValue.

Lemma RemoveStatement_init_no_match_witness :
  fst (@RemoveStatement.init Example.api
         (Example.remove_P31 (JDict [("type", JStr "novalue")])) Example.start) =
  inl (KeyError "value").
Proof.
  apply (@RemoveStatement_init_no_match Example.api
           (Example.remove_P31 (JDict [("type", JStr "novalue")]))
           (Example.remove_P31_attributes (JDict [("type", JStr "novalue")])
              (JDict [("type", JStr "novalue")]))
           "bot" Example.start
           [JDict [("id", JStr "Q1$a"); ("value", Example.V1)];
            JDict [("id", JStr "Q1$b"); ("value", Example.V2)];
            JDict [("id", JStr "Q1$c"); ("value", Example.V1)]]
           eq_refl eq_refl eq_refl).
  - repeat constructor; eexists; reflexivity.
  - discriminate.
  - intros st [<- | [<- | [<- | []]]]; reflexivity.
  - intros value. discriminate.
Defined.

(** A target tagged "novalue" that carries a ["value"] field, as
    [{"type": "novalue", "value": "novalue"}], and that no statement
    matches: the constructor raises [NoStatementsWithThatValue], not a
    missing-key error. *)
Lemma RemoveStatement_init_novalue_with_value_field :
  subscript Example.novalue "type" = inr (JStr "novalue") /\
  parser_value_to_api_value Example.novalue = inr (JDict [("type", JStr "novalue")]) /\
  (forall st, In st [JDict [("id", JStr "Q1$a"); ("value", Example.V1)];
                     JDict [("id", JStr "Q1$b"); ("value", Example.V2)];
                     JDict [("id", JStr "Q1$c"); ("value", Example.V1)]] ->
              value_equals (JDict [("type", JStr "novalue")]) st = false) /\
  fst (@RemoveStatement.init Example.api (Example.remove_P31 Example.novalue)
         Example.start) =
    inl (NoStatementsWithThatValue (JStr "Q1") (JStr "P31") (JStr "novalue")) /\
  fst (@RemoveStatement.init Example.api (Example.remove_P31 Example.novalue)
         Example.start) <> inl (KeyError "value").
Proof.
  repeat split; try reflexivity.
  - intros st [<- | [<- | [<- | []]]]; reflexivity.
  - discriminate.
Qed.

(** ** The body sent *)

Section FullBody.
Context {pystr : PyStr} {api : ClientApi}.

(** What a handler's own [body()] returns has one key, "statement", "patch"
    or "item", or none at all. *)
Lemma body_keys (c : api_command) (b : dict) :
  body c = inr b ->
  b = [] \/ exists k v, b = [(k, v)] /\ (k = "statement" \/ k = "patch" \/ k = "item").
Proof.
  destruct c as [self|self|self|self|self]; simpl.
  - unfold AddStatement.body. intros H. do 5 bind_inv H. injection H as <-.
    right. eauto 6.
  - intros [= <-]. right. eauto 6.
  - intros [= <-]. right. eauto 6.
  - intros [= <-]. right. eauto 6.
  - intros [= <-]. now left.
Qed.

(** A client call made with the request body [sent], or no call at all when
    the user has no token, adds to the history only calls that carry
    [sent]. *)
Lemma client_request_history (cmd : Command) (op : Client -> Remote -> jvalue * Remote)
    (record : jvalue -> call) (sent : jvalue) (w : world) :
  (forall r, call_body (record r) = Some sent) ->
  exists calls,
    history (snd (bind (Utilities.client cmd) (fun client => request (op client) record) w)) =
      (history w ++ calls)%list /\
    Forall (fun c => call_body c = Some sent) calls.
Proof.
  intros Hrec. unfold Utilities.client, request. cbn [bind Monad_M].
  destruct (from_username (user cmd) (remote w)) as [client|].
  - destruct (op client (remote w)) as [r s]. exists [record r]. split; [reflexivity|].
    constructor; [apply Hrec | constructor].
  - exists []. split; [now rewrite app_nil_r | constructor].
Qed.

Lemma client_raise_history {A : Type} (cmd : Command) (e : exn) (w : world) :
  history (snd (bind (Utilities.client cmd) (fun _ => raise e : M A) w)) = history w.
Proof.
  unfold Utilities.client. cbn [bind Monad_M].
  now destruct (from_username (user cmd) (remote w)).
Qed.

Lemma M_bind_snd_ret {A B : Type} (m : M A) (f : A -> B) (w : world) :
  snd (bind m (fun x => ret (f x)) w) = snd (m w).
Proof. cbn [bind ret Monad_M]. now destruct (m w) as [[e|a] w']. Qed.

(** C9: for every handler whose [body()] returns [b], the body sent is [b]
    followed by two more fields, "comment" with the command's summary (the
    empty string when it has none) and "bot" with [False]; [b] has neither
    of them, every other key reads in the body sent as it does in [b], and
    every call that [send] makes with a request body carries exactly this
    one. *)
Theorem full_body_adds_comment_and_bot (c : api_command) (b : dict) :
  body c = inr b ->
  let comment :=
    match dict_get "summary" (json (command_of c)) with
    | Some summary => summary
    | None => JStr ""
    end in
  let sent := (b ++ [("comment", comment); ("bot", JBool false)])%list in
  full_body c = inr sent /\
  dict_get "comment" b = None /\
  dict_get "bot" b = None /\
  dict_get "comment" sent = Some comment /\
  dict_get "bot" sent = Some (JBool false) /\
  length sent = 2 + length b /\
  (forall k, k <> "comment" -> k <> "bot" -> dict_get k sent = dict_get k b) /\
  (forall w, exists calls,
     history (snd (send c w)) = (history w ++ calls)%list /\
     Forall (fun call => call_body call = Some (JDict sent)) calls).
Proof.
  intros Hbody comment sent.
  assert (Hfull : full_body c = inr sent).
  { unfold full_body, Utilities.full_body. rewrite Hbody.
    destruct (body_keys c b Hbody) as [-> | (k & v & -> & [-> | [-> | ->]])]; reflexivity. }
  split; [exact Hfull|].
  split; [destruct (body_keys c b Hbody) as [-> | (k & v & -> & [-> | [-> | ->]])];
          reflexivity|].
  split; [destruct (body_keys c b Hbody) as [-> | (k & v & -> & [-> | [-> | ->]])];
          reflexivity|].
  split; [destruct (body_keys c b Hbody) as [-> | (k & v & -> & [-> | [-> | ->]])];
          reflexivity|].
  split; [destruct (body_keys c b Hbody) as [-> | (k & v & -> & [-> | [-> | ->]])];
          reflexivity|].
  split; [unfold sent; rewrite length_app, Nat.add_comm; reflexivity|].
  split.
  { intros k N1 N2. unfold sent. apply dict_get_app_fresh. simpl.
    destruct (String.eqb_spec k "comment"); [contradiction|].
    destruct (String.eqb_spec k "bot"); [contradiction | reflexivity]. }
  intros w. unfold full_body in Hfull.
  destruct c as [self|self|self|self|self]; cbn [send command_of body] in *.
  - unfold AddStatement.send. rewrite Hfull, M_bind_lift.
    now apply client_request_history.
  - unfold AddLabelDescriptionOrAlias.send. rewrite Hfull, M_bind_lift.
    destruct (py_eq _ (JStr "label")); [now apply client_request_history|].
    destruct (py_eq _ (JStr "description")); [now apply client_request_history|].
    destruct (py_eq _ (JStr "alias")); [now apply client_request_history|].
    exists []. rewrite client_raise_history, app_nil_r. split; [reflexivity | constructor].
  - unfold AddSitelink.send. rewrite Hfull, M_bind_lift.
    now apply client_request_history.
  - unfold CreateItem.send. rewrite Hfull, M_bind_lift.
    now apply client_request_history.
  - rewrite M_bind_snd_ret. unfold RemoveStatement.send. rewrite Hfull, M_bind_lift.
    destruct (from_username (user (RemoveStatement.command self)) (remote w))
      as [client|] eqn:Hclient.
    + rewrite (M_bind_client _ _ _ _ Hclient), delete_loop. cbn [snd history].
      eexists. split; [reflexivity|].
      apply Forall_forall. intros call Hin. apply in_map_iff in Hin.
      destruct Hin as (ir & <- & _). reflexivity.
    + unfold Utilities.client. cbn [bind Monad_M]. rewrite Hclient.
      exists []. split; [now rewrite app_nil_r | constructor].
Qed.

End FullBody.

Lemma full_body_adds_comment_and_bot_witness :
  @full_body Example.pystr
    (RemoveStatement_ (Example.remove_P31_attributes (Example.item "Q5") Example.V1)) =
  inr [("comment", JStr "cleanup"); ("bot", JBool false)].
Proof.
  apply (@full_body_adds_comment_and_bot Example.pystr Example.api
           (RemoveStatement_ (Example.remove_P31_attributes (Example.item "Q5") Example.V1))
           [] eq_refl).
Defined.

(** ** The builder *)

Section Dispatch.
Context {consts : BatchCommand} {pystr : PyStr} {api : ClientApi}.

(** C1: with the three action tags distinct, [build] selects the handler by
    the action and the kind (the "what" field, the "type" field for a
    creation): add+statement constructs an [AddStatement], add+label,
    add+description and add+alias an [AddLabelDescriptionOrAlias],
    add+sitelink an [AddSitelink], create+item a [CreateItem],
    remove+statement a [RemoveStatement]; create+property raises
    [ApiNotImplemented], and so does every other combination, and every
    other action, without calling the client. *)
Theorem build_dispatch (command : Command) (w : world) :
  ACTION_ADD <> ACTION_CREATE -> ACTION_ADD <> ACTION_REMOVE ->
  ACTION_CREATE <> ACTION_REMOVE ->
  let a := action command in
  let what := dict_get "what" (json command) in
  let type := dict_get "type" (json command) in
  let build := ApiCommandBuilder.build command w in
  (a = ACTION_ADD -> what = Some (JStr "statement") ->
   build = constructed AddStatement_ (AddStatement.init command) w) /\
  (a = ACTION_ADD ->
   what = Some (JStr "label") \/ what = Some (JStr "description") \/
   what = Some (JStr "alias") ->
   build = constructed AddLabelDescriptionOrAlias_
             (lift (AddLabelDescriptionOrAlias.init command)) w) /\
  (a = ACTION_ADD -> what = Some (JStr "sitelink") ->
   build = constructed AddSitelink_ (lift (AddSitelink.init command)) w) /\
  (a = ACTION_CREATE -> type = Some (JStr "item") ->
   build = constructed CreateItem_ (lift (CreateItem.init command)) w) /\
  (a = ACTION_CREATE -> type = Some (JStr "property") ->
   build = (inl ApiNotImplemented, w)) /\
  (a = ACTION_REMOVE -> what = Some (JStr "statement") ->
   build = constructed RemoveStatement_ (RemoveStatement.init command) w) /\
  (a = ACTION_ADD ->
   forall kind, what = Some kind ->
     kind <> JStr "statement" -> kind <> JStr "label" -> kind <> JStr "description" ->
     kind <> JStr "alias" -> kind <> JStr "sitelink" ->
     build = (inl ApiNotImplemented, w)) /\
  (a = ACTION_CREATE ->
   forall kind, type = Some kind -> kind <> JStr "item" ->
     build = (inl ApiNotImplemented, w)) /\
  (a = ACTION_REMOVE ->
   forall kind, what = Some kind -> kind <> JStr "statement" ->
     build = (inl ApiNotImplemented, w)) /\
  (a <> ACTION_ADD -> a <> ACTION_CREATE -> a <> ACTION_REMOVE ->
   build = (inl ApiNotImplemented, w)).
Proof.
  intros Hac Har Hcr a what type build.
  unfold build, ApiCommandBuilder.build, constructed, lift. fold a.
  repeat split.
  - intros -> Hw. rewrite Z.eqb_refl. simpl. fold what. rewrite Hw. reflexivity.
  - intros -> Hw. rewrite Z.eqb_refl. simpl. fold what.
    destruct Hw as [-> | [-> | ->]]; reflexivity.
  - intros -> Hw. rewrite Z.eqb_refl. simpl. fold what. rewrite Hw. reflexivity.
  - intros -> Ht. rewrite (proj2 (Z.eqb_neq _ _)) by congruence.
    rewrite Z.eqb_refl. simpl. fold type. rewrite Ht. reflexivity.
  - intros -> Ht. rewrite (proj2 (Z.eqb_neq _ _)) by congruence.
    rewrite Z.eqb_refl. simpl. fold type. rewrite Ht. reflexivity.
  - intros -> Hw. rewrite !(proj2 (Z.eqb_neq ACTION_REMOVE _)) by congruence.
    rewrite Z.eqb_refl. simpl. fold what. rewrite Hw. reflexivity.
  - intros -> kind Hw N1 N2 N3 N4 N5. rewrite Z.eqb_refl. simpl. fold what. rewrite Hw.
    apply py_eq_JStr_false in N1, N2, N3, N4, N5. simpl.
    unfold py_in. simpl. now rewrite N1, N2, N3, N4, N5.
  - intros -> kind Ht N1. rewrite (proj2 (Z.eqb_neq _ _)) by congruence.
    rewrite Z.eqb_refl. simpl. fold type. rewrite Ht.
    apply py_eq_JStr_false in N1. simpl. rewrite N1.
    now destruct (py_eq kind (JStr "property")).
  - intros -> kind Hw N1. rewrite !(proj2 (Z.eqb_neq ACTION_REMOVE _)) by congruence.
    rewrite Z.eqb_refl. simpl. fold what. rewrite Hw.
    apply py_eq_JStr_false in N1. simpl. now rewrite N1.
  - intros N1 N2 N3. apply Z.eqb_neq in N1, N2, N3. now rewrite N1, N2, N3.
Qed.

End Dispatch.

Lemma build_dispatch_witness :
  @ApiCommandBuilder.build Example.consts Example.api Example.add_alias_en Example.start =
    constructed AddLabelDescriptionOrAlias_
      (lift (AddLabelDescriptionOrAlias.init Example.add_alias_en)) Example.start /\
  @ApiCommandBuilder.build Example.consts Example.api Example.create_property Example.start =
    (inl ApiNotImplemented, Example.start).
Proof.
  split.
  - pose proof (@build_dispatch Example.consts Example.api Example.add_alias_en
                  Example.start ltac:(discriminate) ltac:(discriminate)
                  ltac:(discriminate)) as T.
    destruct T as (_ & Hkind & _). apply Hkind; [reflexivity|]. right. now right.
  - pose proof (@build_dispatch Example.consts Example.api Example.create_property
                  Example.start ltac:(discriminate) ltac:(discriminate)
                  ltac:(discriminate)) as T.
    destruct T as (_ & _ & _ & _ & Hproperty & _). apply Hproperty; reflexivity.
Defined.

(** * Further properties *)

(** ** Value translation, continued *)

(** Whatever the parser's data type was, a translated value carries one of
    the three tags of the API, a ["content"] exactly under the tag "value",
    and no other field. *)
Theorem parser_value_to_api_value_tags (parser_value out : jvalue) :
  parser_value_to_api_value parser_value = inr out ->
  exists tag d,
    out = JDict d /\
    dict_get "type" d = Some (JStr tag) /\
    (tag = "value" \/ tag = "novalue" \/ tag = "somevalue") /\
    (tag = "value" <->
     exists content, dict_get "content" d = Some content /\
                     subscript parser_value "value" = inr content) /\
    (forall k, k <> "type" -> k <> "content" -> dict_get k d = None).
Proof.
  unfold parser_value_to_api_value. intros H. bind_inv H. rename a into t.
  destruct (py_in t [JStr "novalue"; JStr "somevalue"]) eqn:Ein.
  - bind_inv H. assert (a = t) by congruence. subst a. simpl in H. injection H as <-.
    unfold py_in in Ein. simpl in Ein.
    destruct (py_eq t (JStr "novalue")) eqn:E1.
    + apply py_eq_JStr in E1. subst t. exists "novalue", [("type", JStr "novalue")].
      repeat split; auto.
      * discriminate.
      * intros (c & Hc & _). discriminate Hc.
      * intros k N1 N2. simpl. now destruct (String.eqb_spec k "type").
    + destruct (py_eq t (JStr "somevalue")) eqn:E2; [|discriminate Ein].
      apply py_eq_JStr in E2. subst t. exists "somevalue", [("type", JStr "somevalue")].
      repeat split; auto.
      * discriminate.
      * intros (c & Hc & _). discriminate Hc.
      * intros k N1 N2. simpl. now destruct (String.eqb_spec k "type").
  - bind_inv H. simpl in H. injection H as <-.
    exists "value", [("type", JStr "value"); ("content", a)].
    repeat split; auto.
    + intros _. exists a. auto.
    + intros k N1 N2. simpl.
      destruct (String.eqb_spec k "type"); [contradiction|].
      now destruct (String.eqb_spec k "content").
Qed.

Lemma parser_value_to_api_value_tags_witness :
  exists tag d,
    JDict [("type", JStr "value"); ("content", JStr "Q5")] = JDict d /\
    dict_get "type" d = Some (JStr tag) /\
    (tag = "value" \/ tag = "novalue" \/ tag = "somevalue") /\
    (tag = "value" <->
     exists content, dict_get "content" d = Some content /\
                     subscript (Example.item "Q5") "value" = inr content) /\
    (forall k, k <> "type" -> k <> "content" -> dict_get k d = None).
Proof.
  apply (parser_value_to_api_value_tags (Example.item "Q5")). reflexivity.
Defined.

(** The translation fails only for want of a dict, of its ["type"], or of
    the ["value"] of a value that is neither "novalue" nor "somevalue"; a
    dict tagged "novalue" or "somevalue" always translates. *)
Theorem parser_value_to_api_value_errors (parser_value : jvalue) (e : exn) :
  parser_value_to_api_value parser_value = inl e <->
  (e = TypeError /\ forall d, parser_value <> JDict d) \/
  (e = KeyError "type" /\
   exists d, parser_value = JDict d /\ dict_get "type" d = None) \/
  (e = KeyError "value" /\
   exists d t, parser_value = JDict d /\ dict_get "type" d = Some t /\
               t <> JStr "novalue" /\ t <> JStr "somevalue" /\
               dict_get "value" d = None).
Proof.
  unfold parser_value_to_api_value.
  destruct parser_value as [| | | | |d];
    try (simpl; split;
         [intros [= <-]; left; split; [reflexivity | discriminate]
         |intros [[-> _] | [(_ & d & [=] & _) | (_ & d & t & [=] & _)]]; reflexivity]).
  simpl. destruct (dict_get "type" d) as [t|] eqn:Et; simpl.
  - unfold py_in. simpl.
    destruct (py_eq t (JStr "novalue")) eqn:E1; simpl.
    { apply py_eq_JStr in E1. split; [discriminate|].
      intros [[_ N] | [(_ & d' & [= <-] & Hn) | (_ & d' & t' & [= <-] & Ht & N & _)]].
      - exfalso. now apply (N d).
      - congruence.
      - congruence. }
    destruct (py_eq t (JStr "somevalue")) eqn:E2; simpl.
    { apply py_eq_JStr in E2. split; [discriminate|].
      intros [[_ N] | [(_ & d' & [= <-] & Hn) | (_ & d' & t' & [= <-] & Ht & _ & N & _)]].
      - exfalso. now apply (N d).
      - congruence.
      - congruence. }
    apply py_eq_JStr_false in E1, E2.
    destruct (dict_get "value" d) as [v|] eqn:Ev; simpl.
    + split; [discriminate|].
      intros [[_ N] | [(_ & d' & [= <-] & Hn) | (_ & d' & t' & [= <-] & _ & _ & _ & Hv)]].
      * exfalso. now apply (N d).
      * congruence.
      * congruence.
    + split.
      * intros [= <-]. right. right. split; [reflexivity|]. exists d, t. auto.
      * intros [[_ N] | [(_ & d' & [= <-] & Hn) | (-> & _)]].
        -- exfalso. now apply (N d).
        -- congruence.
        -- reflexivity.
  - split.
    + intros [= <-]. right. left. split; [reflexivity|]. now exists d.
    + intros [[_ N] | [(-> & _) | (_ & d' & t' & [= <-] & Ht & _)]].
      * exfalso. now apply (N d).
      * reflexivity.
      * congruence.
Qed.

(** A translated value that is tagged "value" is no parsed value any more:
    translating it again fails for want of a ["value"] field.  The
    translation is idempotent on the "novalue" and "somevalue" tags only. *)
Theorem parser_value_to_api_value_twice (parser_value t out : jvalue) :
  subscript parser_value "type" = inr t ->
  t <> JStr "novalue" -> t <> JStr "somevalue" ->
  parser_value_to_api_value parser_value = inr out ->
  parser_value_to_api_value out = inl (KeyError "value").
Proof.
  intros Ht N1 N2 H. unfold parser_value_to_api_value in H. rewrite Ht in H. simpl in H.
  apply py_eq_JStr_false in N1, N2. unfold py_in in H. simpl in H.
  rewrite N1, N2 in H. simpl in H. bind_inv H. simpl in H. injection H as <-.
  reflexivity.
Qed.

Lemma parser_value_to_api_value_twice_witness :
  parser_value_to_api_value (JDict [("type", JStr "value"); ("content", JStr "Q5")]) =
  inl (KeyError "value").
Proof.
  apply (parser_value_to_api_value_twice (Example.item "Q5") (JStr "wikibase-item"));
    [reflexivity | discriminate | discriminate | reflexivity].
Defined.

(** ** The body sent, continued *)

(** [full_body()] on any body: an exception of [body()] goes through; on a
    dict the result reads "comment" as the command's summary (whatever is
    stored under "summary", the empty string only when the key is absent)
    and "bot" as [False], whether the dict had these keys or not, and reads
    every other key as the dict did. *)
Theorem Utilities_full_body_frame (command : Command) (b : dict) :
  (forall e, Utilities.full_body command (inl e) = inl e) /\
  exists sent,
    Utilities.full_body command (inr b) = inr sent /\
    dict_get "comment" sent = Some (Utilities._comment command) /\
    dict_get "bot" sent = Some (JBool false) /\
    (forall k, k <> "comment" -> k <> "bot" -> dict_get k sent = dict_get k b) /\
    (forall summary, dict_get "summary" (json command) = Some summary ->
                     Utilities._comment command = summary) /\
    (dict_get "summary" (json command) = None -> Utilities._comment command = JStr "").
Proof.
  split; [reflexivity|].
  exists (dict_set "bot" (JBool false) (dict_set "comment" (Utilities._comment command) b)).
  split; [reflexivity|]. split; [|split; [|split; [|split]]].
  - rewrite dict_get_set_ne by discriminate. apply dict_get_set_eq.
  - apply dict_get_set_eq.
  - intros k N1 N2. now rewrite !dict_get_set_ne by auto.
  - intros summary H. unfold Utilities._comment, dict_get_default. now rewrite H.
  - intros H. unfold Utilities._comment, dict_get_default. now rewrite H.
Qed.

(** ** AddStatement, continued *)

(** A command without "qualifiers" and without "references" gives a
    statement with both lists empty. *)
Theorem AddStatement_body_defaults (cmd : Command) (self : AddStatement.t) (value : jvalue) :
  AddStatement.attributes cmd = inr self ->
  dict_get "qualifiers" (json cmd) = None ->
  dict_get "references" (json cmd) = None ->
  parser_value_to_api_value (AddStatement.parser_value self) = inr value ->
  AddStatement.body self =
    inr [("statement",
          JDict [("property", JDict [("id", AddStatement.property_id self)]);
                 ("value", value);
                 ("qualifiers", JList []);
                 ("references", JList [])])].
Proof.
  intros Hattr Hq Hr Hv. unfold AddStatement.attributes in Hattr.
  do 5 bind_inv Hattr. simpl in Hattr. injection Hattr as <-.
  unfold AddStatement.body, dict_get_default. cbn [AddStatement.qualifiers
    AddStatement.references AddStatement.parser_value AddStatement.property_id] in *.
  rewrite Hq, Hr. simpl. rewrite Hv. reflexivity.
Qed.

Lemma AddStatement_body_defaults_witness :
  (self <- AddStatement.attributes (Example.add_P1114 Example.novalue) ;;
   AddStatement.body self) =
  inr [("statement",
        JDict [("property", JDict [("id", JStr "P1114")]);
               ("value", JDict [("type", JStr "novalue")]);
               ("qualifiers", JList []);
               ("references", JList [])])].
Proof.
  simpl bind.
  refine (@AddStatement_body_defaults (Example.add_P1114 Example.novalue) _
            (JDict [("type", JStr "novalue")]) eq_refl eq_refl eq_refl eq_refl).
Defined.

Section SendProperties.
Context {pystr : PyStr} {api : ClientApi}.

Lemma AddStatement_send_raises (self : AddStatement.t) (w : world) (e : exn) :
  AddStatement.body self = inl e -> AddStatement.send self w = (inl e, w).
Proof.
  intros He. unfold AddStatement.send, Utilities.full_body, lift. rewrite He. reflexivity.
Qed.

Lemma AddStatement_send_run (self : AddStatement.t) (w : world) (b : dict)
    (client : Client) :
  AddStatement.body self = inr b ->
  from_username (user (AddStatement.command self)) (remote w) = Some client ->
  let sent := JDict (b ++ [("comment", Utilities._comment (AddStatement.command self));
                           ("bot", JBool false)])%list in
  let r := add_statement client (AddStatement.entity_id self) sent (remote w) in
  AddStatement.send self w =
    (inr (fst r),
     {| remote := snd r;
        history := (history w ++
                    [Call_add_statement (AddStatement.entity_id self) sent (fst r)])%list |}).
Proof.
  intros Hb Hclient sent r.
  assert (Hfull : Utilities.full_body (AddStatement.command self) (AddStatement.body self) =
                  inr (b ++ [("comment", Utilities._comment (AddStatement.command self));
                             ("bot", JBool false)])%list).
  { unfold Utilities.full_body. rewrite Hb.
    unfold AddStatement.body in Hb. do 5 bind_inv Hb. injection Hb as <-. reflexivity. }
  unfold AddStatement.send. rewrite Hfull, M_bind_lift, (M_bind_client _ _ _ _ Hclient).
  unfold request. fold sent. fold r. now destruct r.
Qed.

(** [AddStatement.send]: when [body()] raises (a qualifier without a
    value, say), [send] raises the same exception and nothing is sent; when
    [body()] returns and the user's client is there, [send] makes exactly
    one call, [add_statement] on the entity with the body followed by
    "comment" and "bot", and returns its response. *)
Theorem AddStatement_send_result (self : AddStatement.t) (w : world) :
  (forall e, AddStatement.body self = inl e -> AddStatement.send self w = (inl e, w)) /\
  (forall b client,
     AddStatement.body self = inr b ->
     from_username (user (AddStatement.command self)) (remote w) = Some client ->
     let sent := JDict (b ++ [("comment", Utilities._comment (AddStatement.command self));
                              ("bot", JBool false)])%list in
     let r := add_statement client (AddStatement.entity_id self) sent (remote w) in
     AddStatement.send self w =
       (inr (fst r),
        {| remote := snd r;
           history := (history w ++
                       [Call_add_statement (AddStatement.entity_id self) sent (fst r)])%list |})).
Proof.
  split.
  - intros e. apply AddStatement_send_raises.
  - intros b client. apply AddStatement_send_run.
Qed.

End SendProperties.

Lemma AddStatement_send_result_witness :
  match AddStatement.attributes Example.add_P31 with
  | inr self =>
      fst (@AddStatement.send Example.api self Example.start) = inr (JStr "added")
  | inl _ => False
  end.
Proof.
  destruct (AddStatement.attributes Example.add_P31) as [e|self] eqn:Hattr;
    [discriminate Hattr|].
  cbv in Hattr. injection Hattr as <-.
  destruct (@AddStatement_send_result Example.api
              {| AddStatement.command := Example.add_P31;
                 AddStatement.entity_id := JStr "Q1";
                 AddStatement.property_id := JStr "P31";
                 AddStatement.parser_value := Example.item "Q5";
                 AddStatement.data_type := JStr "wikibase-item";
                 AddStatement.references :=
                   JList [JList [JDict [("property", JStr "P248");
                                        ("value", Example.item "Q8")]]];
                 AddStatement.qualifiers :=
                   JList [JDict [("property", JStr "P580");
                                 ("value", Example.item "Q7")]] |}
              Example.start) as [_ T].
  exact (f_equal fst (T _ "bot" eq_refl eq_refl)).
Defined.

Section TokenProperties.
Context {pystr : PyStr} {api : ClientApi}.

(** Without a token for the batch's user, [send] of any handler whose
    [body()] returns raises [NoToken] with the user's name, and nothing is
    sent: the world is as it was. *)
Theorem send_without_token (c : api_command) (b : dict) (w : world) :
  body c = inr b ->
  from_username (user (command_of c)) (remote w) = None ->
  send c w = (inl (NoToken (user (command_of c))), w).
Proof.
  intros Hb Hnone.
  assert (Hfull : exists sent, Utilities.full_body (command_of c) (body c) = inr sent).
  { unfold Utilities.full_body. rewrite Hb. eexists. reflexivity. }
  destruct Hfull as [sent Hfull].
  assert (Hclient : forall (A : Type) (f : Client -> M A),
             bind (Utilities.client (command_of c)) f w =
             (inl (NoToken (user (command_of c))), w)).
  { intros A f. unfold Utilities.client. cbn [bind Monad_M]. now rewrite Hnone. }
  destruct c as [self|self|self|self|self]; cbn [send command_of body] in *.
  - unfold AddStatement.send. now rewrite Hfull, M_bind_lift, Hclient.
  - unfold AddLabelDescriptionOrAlias.send. now rewrite Hfull, M_bind_lift, Hclient.
  - unfold AddSitelink.send. now rewrite Hfull, M_bind_lift, Hclient.
  - unfold CreateItem.send. now rewrite Hfull, M_bind_lift, Hclient.
  - assert (Hs : RemoveStatement.send self w =
                 (inl (NoToken (user (RemoveStatement.command self))), w))
      by (unfold RemoveStatement.send; now rewrite Hfull, M_bind_lift, Hclient).
    cbn [bind Monad_M]. now rewrite Hs.
Qed.

(** Without a token, the two constructors that need the client raise
    [NoToken] once their attributes are set, before any call. *)
Theorem init_without_token (cmd : Command) (w : world) :
  from_username (user cmd) (remote w) = None ->
  (forall self, AddStatement.attributes cmd = inr self ->
                AddStatement.init cmd w = (inl (NoToken (user cmd)), w)) /\
  (forall self, RemoveStatement.attributes cmd = inr self ->
                RemoveStatement.init cmd w = (inl (NoToken (user cmd)), w)).
Proof.
  intros Hnone. split; intros self Hattr.
  - destruct (AddStatement_attributes_inv _ _ Hattr) as (Hcmd & _).
    unfold AddStatement.init, AddStatement.verify_data_type, Utilities.client, lift.
    rewrite Hattr. simpl. now rewrite Hcmd, Hnone.
  - destruct (RemoveStatement_attributes_inv _ _ Hattr) as (Hcmd & _).
    unfold RemoveStatement.init, RemoveStatement.load_ids_to_delete,
      RemoveStatement._get_statements_for_our_property, Utilities.client, lift.
    rewrite Hattr. simpl. now rewrite Hcmd, Hnone.
Qed.

End TokenProperties.

Lemma send_without_token_witness :
  @send Example.pystr Example.api
    (CreateItem_ {| CreateItem.command := Example.anonymous Example.create_item_command |})
    Example.start =
  (inl (NoToken ""), Example.start).
Proof.
  apply (@send_without_token Example.pystr Example.api
           (CreateItem_ {| CreateItem.command :=
                             Example.anonymous Example.create_item_command |})
           [("item", JDict [])] Example.start eq_refl eq_refl).
Defined.

Lemma init_without_token_witness :
  @RemoveStatement.init Example.api
    (Example.anonymous (Example.remove_P31 (Example.item "Q5"))) Example.start =
  (inl (NoToken ""), Example.start).
Proof.
  pose proof (@init_without_token Example.api
                (Example.anonymous (Example.remove_P31 (Example.item "Q5")))
                Example.start eq_refl) as T.
  destruct T as [_ T].
  exact (T {| RemoveStatement.command :=
                Example.anonymous (Example.remove_P31 (Example.item "Q5"));
              RemoveStatement.entity_id := JStr "Q1";
              RemoveStatement.property_id := JStr "P31";
              RemoveStatement.parser_value := Example.item "Q5";
              RemoveStatement.api_value := Example.V1;
              RemoveStatement.ids_to_delete := [] |} eq_refl).
Defined.

Section SitelinkAndItem.
Context {consts : BatchCommand} {pystr : PyStr} {api : ClientApi}.

(** A sitelink command, constructed and sent: with "what", "item", a string
    "site" and the title under ["value"]["value"], and the user's client
    there, exactly one call is made, [add_sitelink] on the item with the one
    patch operation "replace" at "/<site>/title" carrying the title,
    followed by "comment" and "bot"; its response is returned. *)
Theorem AddSitelink_init_and_send
    (cmd : Command) (what item value title : jvalue) (site : string)
    (client : Client) (w : world) :
  dict_get "what" (json cmd) = Some what ->
  dict_get "item" (json cmd) = Some item ->
  dict_get "site" (json cmd) = Some (JStr site) ->
  dict_get "value" (json cmd) = Some value ->
  subscript value "value" = inr title ->
  from_username (user cmd) (remote w) = Some client ->
  let sent :=
    JDict [("patch", JList [JDict [("op", JStr "replace");
                                   ("path", JStr ("/" ++ site ++ "/title"));
                                   ("value", title)]]);
           ("comment", Utilities._comment cmd);
           ("bot", JBool false)] in
  let r := add_sitelink client item sent (remote w) in
  (self <- lift (AddSitelink.init cmd) ;; AddSitelink.send self) w =
    (inr (fst r),
     {| remote := snd r;
        history := (history w ++ [Call_add_sitelink item sent (fst r)])%list |}).
Proof.
  intros Hwhat Hitem Hsite Hvalue Htitle Hclient sent r.
  assert (Hinit : AddSitelink.init cmd =
            inr {| AddSitelink.command := cmd; AddSitelink.what := what;
                   AddSitelink.entity_id := item; AddSitelink.site := JStr site;
                   AddSitelink.value := title |}).
  { unfold AddSitelink.init. simpl. rewrite Hwhat, Hitem, Hsite, Hvalue. simpl.
    now rewrite Htitle. }
  rewrite Hinit, M_bind_lift. unfold AddSitelink.send.
  replace (Utilities.full_body _ _) with
    (inr [("patch", JList [JDict [("op", JStr "replace");
                                  ("path", JStr ("/" ++ site ++ "/title"));
                                  ("value", title)]]);
          ("comment", Utilities._comment cmd);
          ("bot", JBool false)] : result dict) by reflexivity.
  rewrite M_bind_lift. cbn [AddSitelink.command AddSitelink.entity_id].
  rewrite (M_bind_client _ _ _ _ Hclient). unfold request. fold sent. fold r.
  now destruct r.
Qed.

(** A creation of an item, built and sent: with the tags for "add" and
    "create" distinct and the user's client there, [build_and_send] makes
    exactly one call, [create_item] with the body
    [{"item": {}, "comment": summary, "bot": False}], and returns its
    response. *)
Theorem build_and_send_create_item (cmd : Command) (client : Client) (w : world) :
  ACTION_ADD <> ACTION_CREATE ->
  action cmd = ACTION_CREATE ->
  dict_get "type" (json cmd) = Some (JStr "item") ->
  from_username (user cmd) (remote w) = Some client ->
  let sent := JDict [("item", JDict []); ("comment", Utilities._comment cmd);
                     ("bot", JBool false)] in
  let r := create_item client sent (remote w) in
  ApiCommandBuilder.build_and_send cmd w =
    (inr (fst r),
     {| remote := snd r; history := (history w ++ [Call_create_item sent (fst r)])%list |}).
Proof.
  intros Hne Hact Htype Hclient sent r.
  assert (Hbuild : ApiCommandBuilder.build cmd w =
                   (inr (CreateItem_ {| CreateItem.command := cmd |}), w)).
  { unfold ApiCommandBuilder.build.
    rewrite Hact, (proj2 (Z.eqb_neq _ _)) by congruence. rewrite Z.eqb_refl.
    assert (Hkind : subscript (JDict (json cmd)) "type" = inr (JStr "item"))
      by (simpl; now rewrite Htype).
    rewrite Hkind, M_bind_lift. reflexivity. }
  unfold ApiCommandBuilder.build_and_send. cbn [bind Monad_M]. rewrite Hbuild.
  cbn [send]. unfold CreateItem.send.
  replace (Utilities.full_body _ _) with
    (inr [("item", JDict []); ("comment", Utilities._comment cmd);
          ("bot", JBool false)] : result dict) by reflexivity.
  rewrite M_bind_lift. cbn [CreateItem.command].
  rewrite (M_bind_client _ _ _ _ Hclient). unfold request. fold sent. fold r.
  now destruct r.
Qed.

End SitelinkAndItem.

Lemma AddSitelink_init_and_send_witness :
  fst ((self <- lift (AddSitelink.init Example.set_sitelink) ;;
        @AddSitelink.send Example.pystr Example.api self) Example.start) =
  inr (JStr "sitelink").
Proof.
  apply (f_equal fst
    (@AddSitelink_init_and_send Example.pystr Example.api Example.set_sitelink
       (JStr "sitelink") (JStr "Q1")
       (JDict [("type", JStr "string"); ("value", JStr "Douglas Adams")])
       (JStr "Douglas Adams") "enwiki" "bot" Example.start
       eq_refl eq_refl eq_refl eq_refl eq_refl eq_refl)).
Defined.

Lemma build_and_send_create_item_witness :
  fst (@ApiCommandBuilder.build_and_send Example.consts Example.pystr Example.api
         Example.create_item_command Example.start) =
  inr (JStr "created").
Proof.
  apply (f_equal fst
    (@build_and_send_create_item Example.consts Example.pystr Example.api
       Example.create_item_command "bot" Example.start
       ltac:(discriminate) eq_refl eq_refl eq_refl)).
Defined.

Section BuildProperties.
Context {consts : BatchCommand} {pystr : PyStr} {api : ClientApi}.

Lemma AddStatement_init_world (cmd : Command) (w : world) :
  snd (AddStatement.init cmd w) = w \/
  exists p r s,
    snd (AddStatement.init cmd w) =
    {| remote := s; history := (history w ++ [Call_get_property_data_type p r])%list |}.
Proof.
  unfold AddStatement.init, AddStatement.verify_data_type, Utilities.client, request, lift.
  cbn [bind Monad_M].
  destruct (AddStatement.attributes cmd) as [e|self]; [now left|].
  destruct (from_username _ _) as [client|]; [|now left].
  destruct (get_property_data_type client _ _) as [needed s].
  right. exists (AddStatement.property_id self), needed, s.
  destruct (py_in _ _); [reflexivity|].
  now destruct (negb _).
Qed.

Lemma RemoveStatement_init_world (cmd : Command) (w : world) :
  snd (RemoveStatement.init cmd w) = w \/
  exists e r s,
    snd (RemoveStatement.init cmd w) =
    {| remote := s; history := (history w ++ [Call_get_statements e r])%list |}.
Proof.
  unfold RemoveStatement.init, RemoveStatement.load_ids_to_delete,
    RemoveStatement._get_statements_for_our_property, Utilities.client, request, lift.
  cbn [bind Monad_M].
  destruct (RemoveStatement.attributes cmd) as [e|self]; [now left|].
  destruct (from_username _ _) as [client|]; [|now left].
  destruct (get_statements client _ _) as [all s].
  right. exists (RemoveStatement.entity_id self), all, s.
  destruct (RemoveStatement.statements_get _ _) as [e|statements]; [reflexivity|].
  destruct (Nat.eqb (length statements) 0); [reflexivity|].
  cbn [ret raise Monad_M MonadExc_M].
  destruct (for_in statements _ []) as [e|ids]; [reflexivity|].
  destruct (Nat.eqb (length ids) 0); [|reflexivity].
  now destruct (subscript _ "value").
Qed.

Lemma build_reads (cmd : Command) (w : world) :
  snd (ApiCommandBuilder.build cmd w) = w \/
  exists c s,
    call_body c = None /\
    snd (ApiCommandBuilder.build cmd w) =
    {| remote := s; history := (history w ++ [c])%list |}.
Proof.
  assert (Hadd : snd (AddStatement.init cmd w) = w \/
                 exists c s, call_body c = None /\
                   snd (AddStatement.init cmd w) =
                   {| remote := s; history := (history w ++ [c])%list |}).
  { destruct (AddStatement_init_world cmd w) as [H | (p & r & s & H)]; [now left|].
    right. now exists (Call_get_property_data_type p r), s. }
  assert (Hrem : snd (RemoveStatement.init cmd w) = w \/
                 exists c s, call_body c = None /\
                   snd (RemoveStatement.init cmd w) =
                   {| remote := s; history := (history w ++ [c])%list |}).
  { destruct (RemoveStatement_init_world cmd w) as [H | (e & r & s & H)]; [now left|].
    right. now exists (Call_get_statements e r), s. }
  unfold ApiCommandBuilder.build.
  destruct (Z.eqb (action cmd) ACTION_ADD).
  - simpl subscript. destruct (dict_get "what" (json cmd)) as [k|]; [|now left].
    rewrite M_bind_lift.
    destruct (py_eq k (JStr "statement")); [now rewrite M_bind_snd_ret|].
    left. rewrite M_bind_lift. destruct (py_in k _).
    + unfold lift. cbn [bind Monad_M].
      now destruct (AddLabelDescriptionOrAlias.init cmd).
    + rewrite M_bind_lift. destruct (py_eq k (JStr "sitelink")); [|reflexivity].
      unfold lift. cbn [bind Monad_M]. now destruct (AddSitelink.init cmd).
  - destruct (Z.eqb (action cmd) ACTION_CREATE).
    + left. simpl subscript. destruct (dict_get "type" (json cmd)) as [k|]; [|reflexivity].
      rewrite M_bind_lift. destruct (py_eq k (JStr "item")); [reflexivity|].
      rewrite M_bind_lift. now destruct (py_eq k (JStr "property")).
    + destruct (Z.eqb (action cmd) ACTION_REMOVE); [|now left].
      simpl subscript. destruct (dict_get "what" (json cmd)) as [k|]; [|now left].
      rewrite M_bind_lift.
      destruct (py_eq k (JStr "statement")); [now rewrite M_bind_snd_ret | now left].
Qed.

(** [build] sends nothing: it leaves the world as it found it, except for
    one lookup of the property's data type when it constructs an
    [AddStatement] and one listing of the entity's statements when it
    constructs a [RemoveStatement]; no call with a request body is made
    before [send]. *)
Theorem build_only_reads (cmd : Command) (w : world) :
  snd (ApiCommandBuilder.build cmd w) = w \/
  (action cmd = ACTION_ADD /\
   dict_get "what" (json cmd) = Some (JStr "statement") /\
   exists p r s,
     snd (ApiCommandBuilder.build cmd w) =
     {| remote := s; history := (history w ++ [Call_get_property_data_type p r])%list |}) \/
  (action cmd = ACTION_REMOVE /\
   dict_get "what" (json cmd) = Some (JStr "statement") /\
   exists e r s,
     snd (ApiCommandBuilder.build cmd w) =
     {| remote := s; history := (history w ++ [Call_get_statements e r])%list |}).
Proof.
  unfold ApiCommandBuilder.build.
  destruct (Z.eqb_spec (action cmd) ACTION_ADD) as [Hadd|_].
  - simpl subscript. destruct (dict_get "what" (json cmd)) as [k|] eqn:Hk; [|now left].
    rewrite M_bind_lift.
    destruct (py_eq k (JStr "statement")) eqn:Es.
    + apply py_eq_JStr in Es. subst k. rewrite M_bind_snd_ret.
      destruct (AddStatement_init_world cmd w) as [-> | H]; [now left|].
      right. left. auto.
    + left. rewrite M_bind_lift. destruct (py_in k _).
      * unfold lift. cbn [bind Monad_M].
        now destruct (AddLabelDescriptionOrAlias.init cmd).
      * rewrite M_bind_lift. destruct (py_eq k (JStr "sitelink")); [|reflexivity].
        unfold lift. cbn [bind Monad_M]. now destruct (AddSitelink.init cmd).
  - destruct (Z.eqb_spec (action cmd) ACTION_CREATE) as [_|_].
    + left. simpl subscript. destruct (dict_get "type" (json cmd)) as [k|]; [|reflexivity].
      rewrite M_bind_lift. destruct (py_eq k (JStr "item")); [reflexivity|].
      rewrite M_bind_lift. now destruct (py_eq k (JStr "property")).
    + destruct (Z.eqb_spec (action cmd) ACTION_REMOVE) as [Hrem|_]; [|now left].
      simpl subscript. destruct (dict_get "what" (json cmd)) as [k|] eqn:Hk; [|now left].
      rewrite M_bind_lift.
      destruct (py_eq k (JStr "statement")) eqn:Es; [|now left].
      apply py_eq_JStr in Es. subst k. rewrite M_bind_snd_ret.
      destruct (RemoveStatement_init_world cmd w) as [-> | H]; [now left|].
      right. right. auto.
Qed.

(** A command whose construction fails is not sent: [build_and_send]
    raises what [build] raised, and the calls made are at most the one
    lookup of the constructor, none of them with a request body. *)
Theorem build_and_send_failed_build (cmd : Command) (w w' : world) (e : exn) :
  ApiCommandBuilder.build cmd w = (inl e, w') ->
  ApiCommandBuilder.build_and_send cmd w = (inl e, w') /\
  exists calls,
    history w' = (history w ++ calls)%list /\
    length calls <= 1 /\
    Forall (fun c => call_body c = None) calls.
Proof.
  intros H. split.
  - unfold ApiCommandBuilder.build_and_send. cbn [bind Monad_M]. now rewrite H.
  - pose proof (build_reads cmd w) as Hw. rewrite H in Hw. cbn [snd] in Hw.
    destruct Hw as [-> | (c & s & Hc & ->)].
    + exists []. rewrite app_nil_r. repeat split; [auto | constructor].
    + exists [c]. split; [reflexivity|]. split; [auto|]. now repeat constructor.
Qed.

(** [build] constructs an [AddLabelDescriptionOrAlias] for the kinds
    "label", "description" and "alias" only, so the [ValueError] of its
    [send] cannot be reached through [build_and_send]: for such an instance
    [send] either raises [NoToken] or makes its one call. *)
Theorem build_label_kind (cmd : Command) (w w' : world)
    (self : AddLabelDescriptionOrAlias.t) :
  ApiCommandBuilder.build cmd w = (inr (AddLabelDescriptionOrAlias_ self), w') ->
  (AddLabelDescriptionOrAlias.what self = JStr "label" \/
   AddLabelDescriptionOrAlias.what self = JStr "description" \/
   AddLabelDescriptionOrAlias.what self = JStr "alias") /\
  w' = w /\
  forall (w1 : world) (msg : string),
    fst (AddLabelDescriptionOrAlias.send self w1) <> inl (ValueError msg).
Proof.
  intros H.
  assert (Hinv : (AddLabelDescriptionOrAlias.what self = JStr "label" \/
                  AddLabelDescriptionOrAlias.what self = JStr "description" \/
                  AddLabelDescriptionOrAlias.what self = JStr "alias") /\ w' = w).
  { unfold ApiCommandBuilder.build in H.
    destruct (Z.eqb (action cmd) ACTION_ADD).
    - simpl subscript in H. destruct (dict_get "what" (json cmd)) as [k|] eqn:Hk;
        [|discriminate H].
      rewrite M_bind_lift in H. destruct (py_eq k (JStr "statement")).
      + cbn [bind Monad_M ret] in H.
        destruct (AddStatement.init cmd w) as [[e|s] w2]; discriminate H.
      + rewrite M_bind_lift in H. destruct (py_in k _) eqn:Ein.
        * unfold lift in H. cbn [bind Monad_M ret] in H.
          destruct (AddLabelDescriptionOrAlias.init cmd) as [e|s] eqn:Einit;
            [discriminate H|].
          injection H as -> ->. split; [|reflexivity].
          unfold AddLabelDescriptionOrAlias.init in Einit. simpl subscript in Einit.
          rewrite Hk in Einit. do 5 bind_inv Einit. simpl in Einit.
          injection Einit as <-. injection E as <-.
          cbn [AddLabelDescriptionOrAlias.what].
          unfold py_in in Ein. simpl in Ein.
          destruct (py_eq k (JStr "label")) eqn:Kl;
            [apply py_eq_JStr in Kl; auto|].
          destruct (py_eq k (JStr "description")) eqn:Kd;
            [apply py_eq_JStr in Kd; auto|].
          destruct (py_eq k (JStr "alias")) eqn:Ka;
            [apply py_eq_JStr in Ka; auto | discriminate Ein].
        * rewrite M_bind_lift in H. destruct (py_eq k (JStr "sitelink")); [|discriminate H].
          unfold lift in H. cbn [bind Monad_M ret] in H.
          destruct (AddSitelink.init cmd); discriminate H.
    - destruct (Z.eqb (action cmd) ACTION_CREATE).
      + simpl subscript in H. destruct (dict_get "type" (json cmd)) as [k|];
          [|discriminate H].
        rewrite M_bind_lift in H. destruct (py_eq k (JStr "item")); [discriminate H|].
        rewrite M_bind_lift in H. destruct (py_eq k (JStr "property")); discriminate H.
      + destruct (Z.eqb (action cmd) ACTION_REMOVE); [|discriminate H].
        simpl subscript in H. destruct (dict_get "what" (json cmd)) as [k|];
          [|discriminate H].
        rewrite M_bind_lift in H. destruct (py_eq k (JStr "statement")); [|discriminate H].
        cbn [bind Monad_M ret] in H.
        destruct (RemoveStatement.init cmd w) as [[e|s] w2]; discriminate H. }
  destruct Hinv as [Hkind ->]. split; [exact Hkind|]. split; [reflexivity|].
  intros w1 msg. unfold AddLabelDescriptionOrAlias.send.
  replace (Utilities.full_body _ _) with
    (inr (dict_set "bot" (JBool false)
            (dict_set "comment" (Utilities._comment (AddLabelDescriptionOrAlias.command self))
               match AddLabelDescriptionOrAlias.body self with
               | inr b => b | inl _ => [] end)) : result dict) by reflexivity.
  rewrite M_bind_lift. unfold Utilities.client, request. cbn [bind Monad_M].
  destruct (from_username _ _) as [client|]; [|discriminate].
  destruct Hkind as [-> | [-> | ->]]; simpl.
  - now destruct (add_label _ _ _ _).
  - now destruct (add_description _ _ _ _).
  - now destruct (add_alias _ _ _ _).
Qed.

End BuildProperties.

Lemma build_label_kind_witness :
  (JStr "alias" = JStr "label" \/ JStr "alias" = JStr "description" \/
   JStr "alias" = JStr "alias") /\
  fst (@AddLabelDescriptionOrAlias.send Example.pystr Example.api
         {| AddLabelDescriptionOrAlias.command := Example.add_alias_en;
            AddLabelDescriptionOrAlias.what := JStr "alias";
            AddLabelDescriptionOrAlias.entity_id := JStr "Q1";
            AddLabelDescriptionOrAlias.language := JStr "en";
            AddLabelDescriptionOrAlias.value := JStr "alias" |} Example.start) <>
    inl (ValueError "'what' is not label, description or alias.").
Proof.
  destruct (@build_label_kind Example.consts Example.pystr Example.api
              Example.add_alias_en Example.start Example.start
              {| AddLabelDescriptionOrAlias.command := Example.add_alias_en;
                 AddLabelDescriptionOrAlias.what := JStr "alias";
                 AddLabelDescriptionOrAlias.entity_id := JStr "Q1";
                 AddLabelDescriptionOrAlias.language := JStr "en";
                 AddLabelDescriptionOrAlias.value := JStr "alias" |} eq_refl)
    as (Hkind & _ & Hsend).
  split; [exact Hkind | apply Hsend].
Defined.

(** ** RemoveStatement, continued *)

Lemma keep_if_equal_loop_error (target : jvalue) (statements : list jvalue) :
  forall acc e,
    for_in statements (RemoveStatement.keep_if_equal target) acc = inl e ->
    e = KeyError "id" \/ e = KeyError "value" \/ e = TypeError.
Proof.
  induction statements as [|st l IH]; intros acc e; simpl; [discriminate|].
  unfold RemoveStatement.keep_if_equal at 1.
  destruct (subscript st "id") as [e1|id] eqn:Eid; simpl.
  { intros [= <-]. apply subscript_error in Eid. tauto. }
  destruct (subscript st "value") as [e1|v] eqn:Ev; simpl.
  { intros [= <-]. apply subscript_error in Ev. tauto. }
  destruct (py_eq v target); simpl; apply IH.
Qed.

Section RemoveStatementMore.
Context {consts : BatchCommand} {pystr : PyStr} {api : ClientApi}.

(** The loop reads the id and the value of every listed statement before
    it compares: when some statement of the property lacks one of them, the
    constructor fails with [KeyError("id")], [KeyError("value")] or
    [TypeError], whether or not another statement matches the target; it
    succeeds only on a listing where every statement has both. *)
Theorem RemoveStatement_init_malformed_listing
    (cmd : Command) (self : RemoveStatement.t) (client : Client) (w : world)
    (statements : list jvalue) :
  RemoveStatement.attributes cmd = inr self ->
  from_username (user cmd) (remote w) = Some client ->
  RemoveStatement.statements_get
    (fst (get_statements client (RemoveStatement.entity_id self) (remote w)))
    (RemoveStatement.property_id self) = inr statements ->
  ((exists self', fst (RemoveStatement.init cmd w) = inr self') ->
   Forall listed_statement statements) /\
  (~ Forall listed_statement statements ->
   exists e, fst (RemoveStatement.init cmd w) = inl e /\
             (e = KeyError "id" \/ e = KeyError "value" \/ e = TypeError)).
Proof.
  intros Hattr Hclient Hget.
  rewrite (RemoveStatement_init_run cmd self client w statements Hattr Hclient Hget).
  cbn [fst].
  destruct statements as [|st0 l] eqn:Est.
  { split; [constructor | intros N; exfalso; apply N; constructor]. }
  rewrite <- Est.
  match goal with
  | |- context [for_in ?l ?f ?a] => destruct (for_in l f a) as [e|ids] eqn:Hloop
  end.
  - split; [intros [? [=]]|]. intros _. exists e. split; [reflexivity|].
    now apply keep_if_equal_loop_error in Hloop.
  - apply keep_if_equal_loop in Hloop. destruct Hloop as [F _].
    split; [auto | intros N; contradiction].
Qed.

(** What a successful construction leaves: the instance is for the command
    given, it has at least one id to delete, and the one call made was the
    listing of the entity's statements. *)
Lemma RemoveStatement_init_success (cmd : Command) (w w1 : world)
    (self : RemoveStatement.t) :
  RemoveStatement.init cmd w = (inr self, w1) ->
  RemoveStatement.command self = cmd /\
  RemoveStatement.ids_to_delete self <> [] /\
  exists all s,
    w1 = {| remote := s;
            history := (history w ++
                        [Call_get_statements (RemoveStatement.entity_id self) all])%list |}.
Proof.
  unfold RemoveStatement.init, RemoveStatement.load_ids_to_delete,
    RemoveStatement._get_statements_for_our_property, Utilities.client, request, lift.
  cbn [bind Monad_M].
  destruct (RemoveStatement.attributes cmd) as [e|self0] eqn:Hattr; [discriminate|].
  destruct (RemoveStatement_attributes_inv _ _ Hattr) as (Hcmd & _).
  destruct (from_username _ _) as [client|]; [|discriminate].
  destruct (get_statements client _ _) as [all s].
  destruct (RemoveStatement.statements_get _ _) as [e|statements]; [discriminate|].
  destruct (Nat.eqb (length statements) 0); [discriminate|].
  cbn [ret raise Monad_M MonadExc_M].
  destruct (for_in statements _ []) as [e|ids]; [discriminate|].
  destruct ids as [|id ids]; cbn [length Nat.eqb].
  { destruct (subscript _ "value"); discriminate. }
  intros [= <- <-]. cbn [RemoveStatement.command RemoveStatement.ids_to_delete
    RemoveStatement.entity_id].
  split; [exact Hcmd|]. split; [discriminate|]. now exists all, s.
Qed.

(** A removal, built and sent: with the tag for "remove" distinct from the
    two others, a construction that succeeds and the user's client still
    there, [build_and_send] has made the listing followed by one
    [delete_statement] per id to delete, in order, each with the body
    [{"comment": summary, "bot": False}], and returns the list of their
    responses. *)
Theorem build_and_send_remove
    (cmd : Command) (self : RemoveStatement.t) (client : Client) (w w1 : world) :
  ACTION_REMOVE <> ACTION_ADD -> ACTION_REMOVE <> ACTION_CREATE ->
  action cmd = ACTION_REMOVE ->
  dict_get "what" (json cmd) = Some (JStr "statement") ->
  RemoveStatement.init cmd w = (inr self, w1) ->
  from_username (user cmd) (remote w1) = Some client ->
  let ids := RemoveStatement.ids_to_delete self in
  let sent := JDict [("comment", Utilities._comment cmd); ("bot", JBool false)] in
  let deleted := delete_each client sent ids (remote w1) in
  exists all,
    ApiCommandBuilder.build_and_send cmd w =
      (inr (JList (fst deleted)),
       {| remote := snd deleted;
          history :=
            (history w ++
             Call_get_statements (RemoveStatement.entity_id self) all ::
             map (fun ir => Call_delete_statement (fst ir) sent (snd ir))
               (combine ids (fst deleted)))%list |}) /\
    length (fst deleted) = length ids.
Proof.
  intros Hra Hrc Hact Hwhat Hinit Hclient ids sent deleted.
  destruct (RemoveStatement_init_success _ _ _ _ Hinit) as (Hcmd & _ & all & s & Hw1).
  exists all. split; [|apply delete_each_length].
  assert (Hbuild : ApiCommandBuilder.build cmd w = (inr (RemoveStatement_ self), w1)).
  { unfold ApiCommandBuilder.build.
    rewrite Hact, !(proj2 (Z.eqb_neq ACTION_REMOVE _)) by assumption. rewrite Z.eqb_refl.
    assert (Hkind : subscript (JDict (json cmd)) "what" = inr (JStr "statement"))
      by (simpl; now rewrite Hwhat).
    rewrite Hkind, M_bind_lift.
    change (py_eq (JStr "statement") (JStr "statement")) with true. cbv iota.
    cbn [bind Monad_M ret]. now rewrite Hinit. }
  assert (Hsend : RemoveStatement.send self w1 =
                  (inr (fst deleted),
                   {| remote := snd deleted;
                      history :=
                        (history w1 ++
                         map (fun ir => Call_delete_statement (fst ir) sent (snd ir))
                           (combine ids (fst deleted)))%list |})).
  { unfold RemoveStatement.send.
    replace (Utilities.full_body _ _)
      with (inr [("comment", Utilities._comment cmd); ("bot", JBool false)] : result dict)
      by (now rewrite Hcmd).
    rewrite M_bind_lift, Hcmd, (M_bind_client _ _ _ _ Hclient).
    exact (delete_loop client sent ids [] w1). }
  unfold ApiCommandBuilder.build_and_send. cbn [bind Monad_M]. rewrite Hbuild.
  cbn [send bind Monad_M ret]. rewrite Hsend. f_equal. f_equal.
  rewrite Hw1. cbn [history]. now rewrite <- app_assoc.
Qed.

End RemoveStatementMore.

Lemma RemoveStatement_init_malformed_listing_witness :
  exists e,
    fst (@RemoveStatement.init Example.api (Example.remove_P31 (Example.item "Q5"))
           Example.start_broken) = inl e /\
    (e = KeyError "id" \/ e = KeyError "value" \/ e = TypeError).
Proof.
  apply (@RemoveStatement_init_malformed_listing Example.api
           (Example.remove_P31 (Example.item "Q5"))
           (Example.remove_P31_attributes (Example.item "Q5") Example.V1)
           "bot" Example.start_broken
           [JDict [("id", JStr "Q1$a"); ("value", Example.V1)];
            JDict [("value", Example.V1)]]
           eq_refl eq_refl eq_refl).
  intros F. inversion F as [|? ? _ F']. inversion F' as [|? ? [[id Hid] _] _].
  discriminate Hid.
Defined.

Lemma build_and_send_remove_witness :
  fst (@ApiCommandBuilder.build_and_send Example.consts Example.pystr Example.api
         (Example.remove_P31 (Example.item "Q5")) Example.start) =
  inr (JList [JDict [("deleted", JStr "Q1$a")]; JDict [("deleted", JStr "Q1$c")]]).
Proof.
  pose proof (fun self w1 H =>
      @build_and_send_remove Example.consts Example.pystr Example.api
        (Example.remove_P31 (Example.item "Q5")) self "bot" Example.start w1
        ltac:(discriminate) ltac:(discriminate) eq_refl eq_refl H eq_refl) as T.
  specialize (T _ _ eq_refl). destruct T as (all & Hrun & _).
  apply (f_equal fst) in Hrun. exact Hrun.
Defined.

Lemma build_and_send_failed_build_witness :
  @ApiCommandBuilder.build_and_send Example.consts Example.pystr Example.api
    Example.create_property Example.start =
  (inl ApiNotImplemented, Example.start).
Proof.
  apply (@build_and_send_failed_build Example.consts Example.pystr Example.api
           Example.create_property Example.start Example.start ApiNotImplemented eq_refl).
Defined.

Section AddStatementEndToEnd.
Context {consts : BatchCommand} {pystr : PyStr} {api : ClientApi}.

Lemma AddStatement_init_run (cmd : Command) (self : AddStatement.t) (client : Client)
    (w : world) :
  AddStatement.attributes cmd = inr self ->
  from_username (user cmd) (remote w) = Some client ->
  let property_id := AddStatement.property_id self in
  let declared := AddStatement.data_type self in
  let lookup := get_property_data_type client property_id (remote w) in
  AddStatement.init cmd w =
    (if py_in declared [JStr "somevalue"; JStr "novalue"] || py_eq (fst lookup) declared
     then inr self
     else inl (InvalidPropertyDataType property_id declared (fst lookup)),
     {| remote := snd lookup;
        history := (history w ++ [Call_get_property_data_type property_id (fst lookup)])%list |}).
Proof.
  intros Hattr Hclient property_id declared lookup.
  destruct (AddStatement_attributes_inv _ _ Hattr) as (Hcmd & _).
  unfold AddStatement.init, AddStatement.verify_data_type, Utilities.client, request, lift.
  rewrite Hattr. cbn [bind Monad_M]. rewrite Hcmd, Hclient.
  fold property_id declared lookup. destruct lookup as [registered s]. cbn [fst snd].
  destruct (py_in declared _); [reflexivity|].
  now destruct (py_eq registered declared).
Qed.

(** An addition of a statement, built and sent.  With the attributes set
    and the user's client there, the constructor looks the data type up;
    when the declared type is refused, [build_and_send] raises
    [InvalidPropertyDataType] and the lookup is the only call made; when it
    is accepted and [body()] raises, that exception is raised and again
    nothing else is called; when it is accepted and [body()] returns, the
    lookup is followed by exactly one [add_statement] on the entity with the
    body, "comment" and "bot", whose response is returned. *)
Theorem build_and_send_add_statement
    (cmd : Command) (self : AddStatement.t) (client : Client) (w : world) :
  action cmd = ACTION_ADD ->
  dict_get "what" (json cmd) = Some (JStr "statement") ->
  AddStatement.attributes cmd = inr self ->
  from_username (user cmd) (remote w) = Some client ->
  let property_id := AddStatement.property_id self in
  let entity_id := AddStatement.entity_id self in
  let declared := AddStatement.data_type self in
  let lookup := get_property_data_type client property_id (remote w) in
  let looked_up := Call_get_property_data_type property_id (fst lookup) in
  let w1 := {| remote := snd lookup; history := (history w ++ [looked_up])%list |} in
  let accepted :=
    py_in declared [JStr "somevalue"; JStr "novalue"] || py_eq (fst lookup) declared in
  (accepted = false ->
   ApiCommandBuilder.build_and_send cmd w =
     (inl (InvalidPropertyDataType property_id declared (fst lookup)), w1)) /\
  (accepted = true -> forall e, AddStatement.body self = inl e ->
   ApiCommandBuilder.build_and_send cmd w = (inl e, w1)) /\
  (accepted = true -> forall b client1,
   AddStatement.body self = inr b ->
   from_username (user cmd) (remote w1) = Some client1 ->
   let sent := JDict (b ++ [("comment", Utilities._comment cmd);
                            ("bot", JBool false)])%list in
   let r := add_statement client1 entity_id sent (remote w1) in
   ApiCommandBuilder.build_and_send cmd w =
     (inr (fst r),
      {| remote := snd r;
         history := (history w ++
                     [looked_up; Call_add_statement entity_id sent (fst r)])%list |})).
Proof.
  intros Hact Hwhat Hattr Hclient property_id entity_id declared lookup looked_up w1 accepted.
  destruct (AddStatement_attributes_inv _ _ Hattr) as (Hcmd & _).
  assert (Hbuild : ApiCommandBuilder.build cmd w =
                   (if accepted then inr (AddStatement_ self)
                    else inl (InvalidPropertyDataType property_id declared (fst lookup)),
                    w1)).
  { unfold ApiCommandBuilder.build. rewrite Hact, Z.eqb_refl.
    assert (Hkind : subscript (JDict (json cmd)) "what" = inr (JStr "statement"))
      by (simpl; now rewrite Hwhat).
    rewrite Hkind, M_bind_lift.
    change (py_eq (JStr "statement") (JStr "statement")) with true. cbv iota.
    cbn [bind Monad_M ret].
    rewrite (AddStatement_init_run cmd self client w Hattr Hclient).
    fold property_id declared lookup looked_up w1 accepted. now destruct accepted. }
  unfold ApiCommandBuilder.build_and_send. cbn [bind Monad_M]. rewrite Hbuild.
  split; [|split].
  - intros Hacc. now rewrite Hacc.
  - intros Hacc e He. rewrite Hacc. cbn [send]. now apply AddStatement_send_raises.
  - intros Hacc b client1 Hb Hclient1. rewrite Hacc. cbn [send].
    rewrite <- Hcmd in Hclient1.
    pose proof (AddStatement_send_run self w1 b client1 Hb Hclient1) as Hs.
    cbv zeta in Hs. rewrite Hs, Hcmd. cbn [history remote w1].
    now rewrite <- app_assoc.
Qed.

End AddStatementEndToEnd.

Lemma build_and_send_add_statement_witness :
  fst (@ApiCommandBuilder.build_and_send Example.consts Example.pystr Example.api
         (Example.add_P1114 (JDict [("type", JStr "string"); ("value", JStr "ten")]))
         Example.start) =
    inl (InvalidPropertyDataType (JStr "P1114") (JStr "string") (JStr "quantity")) /\
  fst (@ApiCommandBuilder.build_and_send Example.consts Example.pystr Example.api
         Example.add_P31 Example.start) = inr (JStr "added").
Proof.
  split.
  - pose proof (fun self H =>
        @build_and_send_add_statement Example.consts Example.pystr Example.api
          (Example.add_P1114 (JDict [("type", JStr "string"); ("value", JStr "ten")]))
          self "bot" Example.start eq_refl eq_refl H eq_refl) as T.
    specialize (T _ eq_refl). destruct T as (Hrefused & _).
    exact (f_equal fst (Hrefused eq_refl)).
  - pose proof (fun self H =>
        @build_and_send_add_statement Example.consts Example.pystr Example.api
          Example.add_P31 self "bot" Example.start eq_refl eq_refl H eq_refl) as T.
    specialize (T _ eq_refl). destruct T as (_ & _ & Hsent).
    exact (f_equal fst (Hsent eq_refl _ "bot" eq_refl eq_refl)).
Defined.
